(** * lunar-ziwei-mcp: the Ziwei chart service and the almanac service

    A shallow embedding of [ZiweiService] (core/ziwei/ziwei.service.ts) and of
    the suitability part of [AlmanacService] (core/almanac/almanac.service.ts),
    with the properties of the chart-synthesis specification stated on it.

    Conventions of the embedding:
    - JavaScript integers (ages, years, palace positions) are [Z];
    - a [Record<string, T>] used as a dictionary is a [gmap string T] (own
      properties only; palace names are never names of [Object.prototype]);
    - the injected services ([IztroService], [Tyme4tsService]) and the calendar
      library are records of functions, passed the way the constructor
      receives them;
    - a method that reads the wall clock, logs or may throw lives in the monad
      [M]: a state of clock readings and an event trace, with a result that is
      a value or a thrown [Error] message; the calendar, pillar, chart and
      period computations of the collaborators may throw and are traced, their
      table lookups (star classes, stem table, star transformations) are
      functions. *)

From Stdlib Require Import ZArith String Ascii List Bool Lia.
From stdpp Require Import gmap strings list fin_maps.

(* ===================================================================== *)
(** ** JavaScript helpers *)
(* ===================================================================== *)

(** [Number(s)] and [parseInt(s)] on the date and time fields: an integer or
    [NaN]. *)
Inductive number := NaN | Int (z : Z).

(** [s.split(sep)] for a one-character separator. *)
Fixpoint split (sep : ascii) (s : string) : list string :=
  match s with
  | EmptyString => [""]
  | String c rest =>
      if Ascii.eqb c sep then "" :: split sep rest
      else match split sep rest with
           | h :: t => String c h :: t
           | [] => [String c ""]
           end
  end.

(** [arr[i]] for an integer index: [undefined] (here [None]) out of range. *)
Definition js_index {A} (arr : list A) (i : Z) : option A :=
  if (i <? 0)%Z then None else arr !! Z.to_nat i.

(** [a % b] truncates toward zero, as [Z.rem] does. *)
Definition js_rem (a b : Z) : Z := Z.rem a b.

(** [a || b] where [a] is a string or [undefined]: the empty string is falsy. *)
Definition or_string (a : option string) (b : string) : string :=
  match a with
  | Some s => if String.eqb s "" then b else s
  | None => b
  end.

(** [arr.includes(x)] on strings. *)
Definition includes (arr : list string) (x : string) : bool :=
  existsb (String.eqb x) arr.

(* ===================================================================== *)
(** ** Dates *)
(* ===================================================================== *)

Module JsDate.
(** What the code reads of a [Date]; [getMonth] is 0-based. *)
Record t := mk {
  getFullYear : Z;
  getMonth : Z;
  getDate : Z;
  getHours : Z;
  getMinutes : Z
}.
End JsDate.

Module Lunar.
(** What the code reads of a lunar date object. *)
Record t := mk {
  getYear : Z;
  getMonth : Z;
  getDay : Z
}.
End Lunar.

(* ===================================================================== *)
(** ** The effect monad: wall clock, log and collaborator trace, exceptions *)
(* ===================================================================== *)

Inductive Event :=
| EvLog (msg : string)           (* logger.log *)
| EvError (msg : string)         (* logger.error *)
| EvCall (method : string) (thrown : option string).
    (* a call into a collaborator, and the message it threw, if it threw *)

(** The [n]-th evaluation of [new Date()] yields [clock n]. *)
Record World := mkWorld {
  clock : nat -> JsDate.t;
  reads : nat;
  trace : list Event
}.

Inductive result (A : Type) :=
| Ok (a : A)
| Throw (message : string).
Arguments Ok {A} a.
Arguments Throw {A} message.

Definition M (A : Type) : Type := World -> World * result A.

Definition ret {A} (a : A) : M A := fun w => (w, Ok a).

Definition bind {A B} (m : M A) (k : A -> M B) : M B :=
  fun w => match m w with
           | (w', Ok a) => k a w'
           | (w', Throw e) => (w', Throw e)
           end.

Definition throw {A} (message : string) : M A := fun w => (w, Throw message).

(** [try { body } catch (error) { handler(error.message) }] *)
Definition tryCatch {A} (body : M A) (handler : string -> M A) : M A :=
  fun w => match body w with
           | (w', Ok a) => (w', Ok a)
           | (w', Throw e) => handler e w'
           end.

Definition emit (e : Event) : M unit :=
  fun w => (mkWorld (clock w) (reads w) (trace w ++ [e]), Ok tt).

(** [new Date()] *)
Definition newDate : M JsDate.t :=
  fun w => (mkWorld (clock w) (S (reads w)) (trace w), Ok (clock w (reads w))).

Definition thrownBy {A} (r : result A) : option string :=
  match r with Ok _ => None | Throw e => Some e end.

(** A call into a collaborator: recorded, and its outcome passed on. *)
Definition call {A} (method : string) (outcome : result A) : M A :=
  fun w =>
    (mkWorld (clock w) (reads w)
       (trace w ++ [EvCall method (thrownBy outcome)]),
     outcome).

Notation "x <~ m ;; k" := (bind m (fun x => k))
  (at level 100, m at next level, right associativity).
Notation "m ;;; k" := (bind m (fun _ => k))
  (at level 100, right associativity).

(** The value a run ends with, and the events it added. *)
Definition outcome {A} (r : World * result A) : result A := snd r.
Definition events {A} (r : World * result A) : list Event := trace (fst r).

(* ===================================================================== *)
(** ** Data model (shared/types/ziwei.types) *)
(* ===================================================================== *)

Record Palace := mkPalace {
  name : string;
  position : Z;
  stars : list string
}.

Record LuckPeriod := mkLuckPeriod {
  startAge : Z;
  endAge : Z;
  palace : string;
  label : string
}.

Record Pillar := mkPillar { stem : string; branch : string }.

Record FourPillars := mkFourPillars {
  year : Pillar;
  month : Pillar;
  day : Pillar;
  hour : Pillar
}.

(** One (star, transformationType) pair of a stem. *)
Record Transformation := mkTransformation {
  star : string;
  transformationType : string
}.

(** What [getStarTransformation] yields for a star that transforms. *)
Record StarTransformation := mkStarTransformation {
  st_type : string;
  st_name : string
}.

Record StarInfo := mkStarInfo {
  mainStars : gmap string (list string);
  luckyStars : gmap string (list string);
  evilStars : gmap string (list string);
  keyStarsLocation : gmap string string
}.

Record StemTransformations := mkStemTransformations {
  st_stem : string;
  transformations : list Transformation
}.

Record TransformationInfo := mkTransformationInfo {
  yearStem : StemTransformations;
  dayStem : StemTransformations;
  tpalaces : gmap string (list Transformation)
}.

Record TripleSquare := mkTripleSquare {
  originalPalace : string;
  triplePalaces : list string;
  squarePalaces : list string;
  allRelatedPalaces : list string
}.

Record LuckPeriods := mkLuckPeriods {
  major : list LuckPeriod;
  minor : LuckPeriod;
  annual : LuckPeriod;
  monthly : LuckPeriod;
  daily : LuckPeriod;
  hourly : LuckPeriod
}.

(** A palace of the assembled result. *)
Record ResultPalace := mkResultPalace {
  rp_name : string;
  rp_position : Z;
  rp_stars : list string;
  isVoid : bool;
  direction : string;
  significance : string
}.

Record ZiweiChartResult := mkZiweiChartResult {
  zodiac : string;
  constellation : string;
  fourPillars : FourPillars;
  palaces : list ResultPalace;
  luckPeriods : LuckPeriods;
  starsInfo : StarInfo;
  transformationInfo : TransformationInfo;
  calculationTime : string
}.

Record CalculateZiweiDto := mkDto {
  birthDate : string;
  dateType : string;
  birthTime : string;
  birthPlace : string;
  gender : string
}.

(** The argument object of [iztroService.calculateZiweiChart]. *)
Record ChartInput := mkChartInput {
  ci_year : Z;
  ci_month : Z;
  ci_day : Z;
  ci_hour : number;
  ci_minute : number;
  ci_gender : string
}.

(* ===================================================================== *)
(** ** Collaborators *)
(* ===================================================================== *)

(** Built-ins of the JavaScript runtime that the embedding does not unfold. *)
Module JsBuiltins.
Record t := mk {
  Number : string -> number;
  parseInt : option string -> number;    (* parseInt(undefined) is NaN *)
  JSON_stringify : CalculateZiweiDto -> string;
  toISOString : JsDate.t -> string
}.
End JsBuiltins.

(** The calendar library (the classes [Solar] and [Lunar]); an array element
    that a destructuring does not find is [undefined], here [None]. *)
Module Calendar.
Record t := mk {
  Solar_fromYmd_getLunar :
    option number -> option number -> option number -> result Lunar.t;
  Lunar_fromYmd :
    option number -> option number -> option number -> result Lunar.t
}.
End Calendar.

Module Tyme4tsService.
Record t := mk {
  calculateFourPillars :
    Z -> Z -> Z -> number -> number -> string -> result FourPillars;
  getChineseZodiac : Z -> result string;
  getConstellation : number -> number -> result string
}.
End Tyme4tsService.

Record ZiweiData := mkZiweiData { zd_palaces : list Palace }.

(** The chart-primitive service. The chart and period computations may
    throw; the star and stem tables are lookups. *)
Module IztroService.
Record t := mk {
  calculateZiweiChart : ChartInput -> result ZiweiData;
  calculateMajorPeriods : Lunar.t -> string -> result (list LuckPeriod);
  calculateMinorPeriod : Lunar.t -> string -> Z -> result LuckPeriod;
  calculateAnnualPeriod : Lunar.t -> Z -> list Palace -> result LuckPeriod;
  calculateMonthlyPeriod :
    Lunar.t -> Z -> Z -> list Palace -> result LuckPeriod;
  calculateDailyPeriod :
    Lunar.t -> JsDate.t -> list Palace -> result LuckPeriod;
  calculateHourlyPeriod :
    Lunar.t -> JsDate.t -> list Palace -> result LuckPeriod;
  isMainStar : string -> bool;
  isLuckyStar : string -> bool;
  isEvilStar : string -> bool;
  getKeyStarsLocation : list Palace -> gmap string string;
  getTransformationsByStem : string -> list Transformation;
  findTransformationPalaces :
    list Transformation -> list Palace -> gmap string (list Transformation);
  getTripleSquarePalaces : string -> result TripleSquare;
  getStarTransformation : string -> option StarTransformation
}.
End IztroService.

(* ===================================================================== *)
(** ** ZiweiService (core/ziwei/ziwei.service.ts) *)
(* ===================================================================== *)

Inductive TransformationType := huaquan | huake | huaxing | huaji.

Definition TransformationType_string (t : TransformationType) : string :=
  match t with
  | huaquan => "huaquan"
  | huake => "huake"
  | huaxing => "huaxing"
  | huaji => "huaji"
  end.

Record TransformationDetail := mkDetail {
  d_palace : string;
  d_star : string;
  d_transformation : string
}.

Record CheckResult := mkCheckResult {
  exists_ : bool;
  details : list TransformationDetail
}.

(** [m[key] = [...(m[key] || []), value]] *)
Definition append_at {V} (m : gmap string (list V)) (key : string) (value : V)
  : gmap string (list V) :=
  <[key := default [] (m !! key) ++ [value]]> m.

Module ZiweiService.
Section Service.

Variable js : JsBuiltins.t.
Variable calendar : Calendar.t.
Variable iztroService : IztroService.t.
Variable tyme4tsService : Tyme4tsService.t.

(** [convertToLunarDate(dateStr, dateType)] *)
Definition convertToLunarDate (dateStr dateType : string) : M Lunar.t :=
  let nums := map (JsBuiltins.Number js) (split "-" dateStr) in
  let year := nums !! 0%nat in
  let month := nums !! 1%nat in
  let day := nums !! 2%nat in
  if String.eqb dateType "solar"
  then call "Solar.fromYmd.getLunar"
         (Calendar.Solar_fromYmd_getLunar calendar year month day)
  else call "Lunar.fromYmd" (Calendar.Lunar_fromYmd calendar year month day).

(** [calculateFourPillars(lunarDate, birthTime, birthPlace)] *)
Definition calculateFourPillars (lunarDate : Lunar.t)
    (birthTime birthPlace : string) : M FourPillars :=
  let hour := JsBuiltins.parseInt js (split ":" birthTime !! 0%nat) in
  let minute :=
    JsBuiltins.parseInt js
      (Some (or_string (split ":" birthTime !! 1%nat) "0")) in
  call "tyme4ts.calculateFourPillars"
    (Tyme4tsService.calculateFourPillars tyme4tsService
       (Lunar.getYear lunarDate) (Lunar.getMonth lunarDate)
       (Lunar.getDay lunarDate) hour minute birthPlace).

(** [generateLuckPeriods(lunarDate, gender, palaces)]. The second component
    is the local [currentMajor], which the method computes and leaves out of
    the object it returns. *)
Definition generateLuckPeriods_locals (lunarDate : Lunar.t)
    (gender : string) (palaces : list Palace)
  : M (LuckPeriods * option LuckPeriod) :=
  now1 <~ newDate ;;
  let currentYear := JsDate.getFullYear now1 in
  let birthYear := Lunar.getYear lunarDate in
  let age := (currentYear - birthYear)%Z in
  majorPeriods <~ call "iztro.calculateMajorPeriods"
    (IztroService.calculateMajorPeriods iztroService lunarDate
       (if String.eqb gender "male" then "man" else "woman")) ;;
  let currentMajor :=
    match List.find
            (fun period =>
               (age >=? startAge period)%Z && (age <? endAge period)%Z)
            majorPeriods with
    | Some period => Some period
    | None => majorPeriods !! 0%nat
    end in
  minorPeriod <~ call "iztro.calculateMinorPeriod"
    (IztroService.calculateMinorPeriod iztroService lunarDate
       (if String.eqb gender "male" then "man" else "woman") currentYear) ;;
  annualPeriod <~ call "iztro.calculateAnnualPeriod"
    (IztroService.calculateAnnualPeriod iztroService lunarDate currentYear
       palaces) ;;
  now2 <~ newDate ;;
  monthlyPeriod <~ call "iztro.calculateMonthlyPeriod"
    (IztroService.calculateMonthlyPeriod iztroService lunarDate currentYear
       (JsDate.getMonth now2 + 1)%Z palaces) ;;
  now3 <~ newDate ;;
  dailyPeriod <~ call "iztro.calculateDailyPeriod"
    (IztroService.calculateDailyPeriod iztroService lunarDate now3 palaces) ;;
  now4 <~ newDate ;;
  hourlyPeriod <~ call "iztro.calculateHourlyPeriod"
    (IztroService.calculateHourlyPeriod iztroService lunarDate now4 palaces) ;;
  ret ({| major := majorPeriods;
          minor := minorPeriod;
          annual := annualPeriod;
          monthly := monthlyPeriod;
          daily := dailyPeriod;
          hourly := hourlyPeriod |}, currentMajor).

Definition generateLuckPeriods (lunarDate : Lunar.t) (gender : string)
    (palaces : list Palace) : M LuckPeriods :=
  r <~ generateLuckPeriods_locals lunarDate gender palaces ;; ret (fst r).

(** The three dictionaries [mainStars], [luckyStars], [evilStars] while the
    two nested [forEach] loops of [organizeStarInfo] run. *)
Definition Buckets : Type :=
  gmap string (list string) * gmap string (list string)
  * gmap string (list string).

Definition organize_star (palaceName : string) (b : Buckets) (star : string)
  : Buckets :=
  let '(mainStars, luckyStars, evilStars) := b in
  if IztroService.isMainStar iztroService star
  then (append_at mainStars palaceName star, luckyStars, evilStars)
  else if IztroService.isLuckyStar iztroService star
  then (mainStars, append_at luckyStars palaceName star, evilStars)
  else if IztroService.isEvilStar iztroService star
  then (mainStars, luckyStars, append_at evilStars palaceName star)
  else b.

Definition organize_palace (b : Buckets) (palace : Palace) : Buckets :=
  fold_left (organize_star (name palace)) (stars palace) b.

(** [organizeStarInfo(palaces)] *)
Definition organizeStarInfo (palaces : list Palace) : StarInfo :=
  let '(mainStars, luckyStars, evilStars) :=
    fold_left organize_palace palaces (∅, ∅, ∅) in
  {| mainStars := mainStars;
     luckyStars := luckyStars;
     evilStars := evilStars;
     keyStarsLocation :=
       IztroService.getKeyStarsLocation iztroService palaces |}.

(** [calculateTransformations(fourPillars, palaces)] *)
Definition calculateTransformations (fourPillars : FourPillars)
    (palaces : list Palace) : TransformationInfo :=
  let yearStemTransformations :=
    IztroService.getTransformationsByStem iztroService
      (stem (year fourPillars)) in
  let dayStemTransformations :=
    IztroService.getTransformationsByStem iztroService
      (stem (day fourPillars)) in
  let transformationPalaces :=
    IztroService.findTransformationPalaces iztroService
      (yearStemTransformations ++ dayStemTransformations) palaces in
  {| yearStem := {| st_stem := stem (year fourPillars);
                    transformations := yearStemTransformations |};
     dayStem := {| st_stem := stem (day fourPillars);
                   transformations := dayStemTransformations |};
     tpalaces := transformationPalaces |}.

(** [getTripleSquarePalaces(palaceName)] *)
Definition getTripleSquarePalaces (palaceName : string) : M TripleSquare :=
  call "iztro.getTripleSquarePalaces"
    (IztroService.getTripleSquarePalaces iztroService palaceName).

(** The chart that [checkPalaceTransformation] looks at. *)
Definition mockPalaces : list (string * list string) :=
  [ ("命宫", ["紫微"; "天府"]);
    ("兄弟宫", ["天机"]);
    ("夫妻宫", ["太阳"; "太阴"]) ].

(** [checkPalaceTransformation(palaceName, transformationType)] *)
Definition checkPalaceTransformation (palaceName : string)
    (transformationType : TransformationType) : M CheckResult :=
  related <~ getTripleSquarePalaces palaceName ;;
  let allRelatedPalaces := allRelatedPalaces related in
  let details :=
    flat_map
      (fun palace : string * list string =>
         if includes allRelatedPalaces (fst palace)
         then flat_map
                (fun star =>
                   match IztroService.getStarTransformation iztroService star
                   with
                   | Some transformation =>
                       if String.eqb (st_type transformation)
                            (TransformationType_string transformationType)
                       then [ {| d_palace := fst palace;
                                 d_star := star;
                                 d_transformation := st_name transformation |} ]
                       else []
                   | None => []
                   end)
                (snd palace)
         else [])
      mockPalaces in
  ret {| exists_ := (0 <? length details)%nat; details := details |}.

(** [getPalaceDirection(position)] *)
Definition directions : list string :=
  ["正北"; "东北"; "正东"; "东南"; "正南"; "西南"; "正西"; "西北"].

Definition getPalaceDirection (position : Z) : string :=
  or_string (js_index directions (js_rem (position - 1) 8)) "未知".

(** [getPalaceSignificance(palaceName)] *)
Definition significanceMap : gmap string string :=
  list_to_map
    [ ("命宫", "代表个人性格、先天运势、整体命运");
      ("兄弟宫", "代表兄弟姐妹、朋友、合作伙伴关系");
      ("夫妻宫", "代表婚姻、配偶、感情关系");
      ("子女宫", "代表子女、晚辈、创造力");
      ("财帛宫", "代表财富、收入、理财能力");
      ("疾厄宫", "代表健康、疾病、体质");
      ("迁移宫", "代表外出、旅行、人际关系");
      ("交友宫", "代表朋友、同事、社交圈");
      ("官禄宫", "代表事业、工作、职业发展");
      ("田宅宫", "代表房产、家庭、祖业");
      ("福德宫", "代表福气、精神生活、兴趣爱好");
      ("父母宫", "代表父母、长辈、上司") ].

Definition getPalaceSignificance (palaceName : string) : string :=
  or_string (significanceMap !! palaceName) "未知宫位".

(** The [try] block of [calculateZiweiChart]. *)
Definition calculateZiweiChart_body (dto : CalculateZiweiDto)
  : M ZiweiChartResult :=
  emit (EvLog ("开始计算紫微斗数星盘: " +:+ JsBuiltins.JSON_stringify js dto)) ;;;
  lunarDate <~ convertToLunarDate (birthDate dto) (dateType dto) ;;
  fourPillars <~
    calculateFourPillars lunarDate (birthTime dto) (birthPlace dto) ;;
  zodiac <~ call "tyme4ts.getChineseZodiac"
    (Tyme4tsService.getChineseZodiac tyme4tsService
       (Lunar.getYear lunarDate)) ;;
  constellation <~ call "tyme4ts.getConstellation"
    (Tyme4tsService.getConstellation tyme4tsService
       (JsBuiltins.parseInt js (split "-" (birthDate dto) !! 1%nat))
       (JsBuiltins.parseInt js (split "-" (birthDate dto) !! 2%nat))) ;;
  ziweiData <~ call "iztro.calculateZiweiChart"
    (IztroService.calculateZiweiChart iztroService
       {| ci_year := Lunar.getYear lunarDate;
          ci_month := Lunar.getMonth lunarDate;
          ci_day := Lunar.getDay lunarDate;
          ci_hour :=
            JsBuiltins.parseInt js (split ":" (birthTime dto) !! 0%nat);
          ci_minute :=
            JsBuiltins.parseInt js
              (Some (or_string (split ":" (birthTime dto) !! 1%nat) "0"));
          ci_gender :=
            if String.eqb (gender dto) "male" then "man" else "woman" |}) ;;
  luckPeriods <~
    generateLuckPeriods lunarDate (gender dto) (zd_palaces ziweiData) ;;
  let starsInfo := organizeStarInfo (zd_palaces ziweiData) in
  let transformations :=
    calculateTransformations fourPillars (zd_palaces ziweiData) in
  let palaces :=
    map (fun palace =>
           {| rp_name := name palace;
              rp_position := position palace;
              rp_stars := stars palace;
              isVoid := (length (stars palace) =? 0)%nat;
              direction := getPalaceDirection (position palace);
              significance := getPalaceSignificance (name palace) |})
        (zd_palaces ziweiData) in
  now <~ newDate ;;
  let result :=
    {| zodiac := zodiac;
       constellation := constellation;
       fourPillars := fourPillars;
       palaces := palaces;
       luckPeriods := luckPeriods;
       starsInfo := starsInfo;
       transformationInfo := transformations;
       calculationTime := JsBuiltins.toISOString js now |} in
  emit (EvLog "紫微斗数星盘计算完成") ;;;
  ret result.

(** [calculateZiweiChart(dto)]: the body, and the [catch] clause that logs
    and throws [new Error(`星盘计算失败: ${error.message}`)]. *)
Definition calculateZiweiChart (dto : CalculateZiweiDto)
  : M ZiweiChartResult :=
  tryCatch (calculateZiweiChart_body dto)
    (fun message =>
       emit (EvError "紫微斗数星盘计算失败") ;;;
       throw ("星盘计算失败: " +:+ message)).

End Service.
End ZiweiService.

(* ===================================================================== *)
(** ** AlmanacService: suitable and avoided activities
       (core/almanac/almanac.service.ts) *)
(* ===================================================================== *)

(** What the almanac reads of a solar date object. *)
Module Solar.
Record t := mk {
  getYear : Z;
  getMonth : Z;
  getDay : Z;
  getWeek : Z
}.
End Solar.

(** A solar term of the calendar library. *)
Module JieQi.
Record t := mk {
  getName : string;
  getSolar : Solar.t
}.
End JieQi.

(** The calendar library as the almanac uses it: conversions and the solar
    term table may throw; the getters of a date object are functions. *)
Module Tyme.
Record t := mk {
  Solar_fromYmd :
    option number -> option number -> option number -> result Solar.t;
  Solar_getLunar : Solar.t -> result Lunar.t;
  Solar_toYmd : Solar.t -> string;
  Solar_toHms : Solar.t -> string;
  Solar_monthLength : Solar.t -> Z;   (* solar.getSolarMonth().length() *)
  Lunar_isLeap : Lunar.t -> bool;
  Lunar_getMonthInChinese : Lunar.t -> string;
  Lunar_getDayInChinese : Lunar.t -> string;
  Lunar_getYearInGanzhi : Lunar.t -> string;
  JieQi_fromYearTerm : number -> Z -> result JieQi.t;
  JieQi_fromSolar : Solar.t -> result (option JieQi.t)
}.
End Tyme.

Record GanzhiDate := mkGanzhiDate { dayGan : string; dayZhi : string }.

(** The methods of [Tyme4tsService] that [AlmanacService] calls; each may
    throw. What the service does not look into (the Peng Zu taboos, the
    lunar mansion) is a string here. *)
Module Tyme4tsAlmanac.
Record t := mk {
  getGanzhiDate : Lunar.t -> result GanzhiDate;
  getChineseZodiac : Z -> result string;
  getDayZodiac : Lunar.t -> result string;
  getConstellation : option number -> option number -> result string;
  getPengZuBaiJi : string -> string -> result string;
  getDayGods : Lunar.t -> result (list string);
  getTwelveBuildings : Lunar.t -> result string;
  getLunarMansion : Lunar.t -> result string;
  getSolarFestivals : Solar.t -> result (list string);
  getLunarFestivals : Lunar.t -> result (list string)
}.
End Tyme4tsAlmanac.

Record LuckyDay := mkLuckyDay {
  ld_date : string;
  ld_lunarDate : string;
  ld_ganzhi : string;
  ld_suitable : list string;
  luckyType : string
}.

Record LuckyDayResult := mkLuckyDayResult {
  ldr_year : number;
  ldr_month : number;
  count : nat;
  days : list LuckyDay
}.

Record SolarTerm := mkSolarTerm {
  term_name : string;
  term_date : string;
  term_time : string;
  description : string;
  customs : list string
}.

Record SolarTermResult := mkSolarTermResult {
  str_year : number;
  terms : list SolarTerm;
  springStart : option string;
  summerStart : option string;
  autumnStart : option string;
  winterStart : option string
}.

Record AlmanacDirection := mkAlmanacDirection {
  auspicious : list string;
  inauspicious : list string;
  caishen : string;     (* 财神 *)
  xishen : string;      (* 喜神 *)
  guishen : string      (* 贵神 *)
}.

Record ZodiacInfo := mkZodiacInfo {
  zi_year : string;
  zi_day : string;
  yearGanzhi : string;
  yearShengxiao : string
}.

Record JieQiInfo := mkJieQiInfo { jq_name : string; jq_date : string }.

Record LunarInfo := mkLunarInfo {
  li_year : Z;
  li_month : Z;
  li_day : Z;
  leap : bool;
  monthName : string;
  dayName : string
}.

Record SuitabilityItems := mkSuitabilityItems {
  suitable : list string;
  avoid : list string
}.

Record SuitableAvoid := mkSuitableAvoid {
  sa_date : string;
  sa_suitable : list string;
  sa_avoid : list string
}.

Record AlmanacResult := mkAlmanacResult {
  a_solar : Solar.t;
  a_lunar : LunarInfo;
  a_ganzhi : GanzhiDate;
  a_zodiac : ZodiacInfo;
  a_constellation : string;
  a_jieqi : option JieQiInfo;
  festival : list string;
  suitability : SuitabilityItems;
  directions : AlmanacDirection;
  pengZuBaiJi : string;
  gods : list string;
  twelveBuildings : string;
  lunarMansion : string
}.

Module AlmanacService.
Section Service.

Variable js : JsBuiltins.t.
Variable calendar : Calendar.t.

(** [getSuitabilityItems(lunar)] *)
Definition getSuitabilityItems (lunar : Lunar.t) : SuitabilityItems :=
  let day := Lunar.getDay lunar in
  let month := Lunar.getMonth lunar in
  let suitable :=
    ["祭祀"; "祈福"; "求嗣"; "开光"; "出行";
     "解除"; "伐木"; "入宅"; "移徙"; "安床"] in
  let avoid := ["嫁娶"; "安葬"; "破土"; "修坟"; "纳畜"] in
  let suitable :=
    if (month =? 1)%Z && (day =? 1)%Z
    then suitable ++ ["开业"; "剪彩"; "纳财"]
    else suitable in
  {| suitable := suitable; avoid := avoid |}.

(** [getSuitableAvoid(dateStr)]: no [try] here, a calendar failure leaves
    the method as it is thrown. *)
Definition getSuitableAvoid (dateStr : string) : M SuitableAvoid :=
  let nums := map (JsBuiltins.Number js) (split "-" dateStr) in
  let year := nums !! 0%nat in
  let month := nums !! 1%nat in
  let day := nums !! 2%nat in
  lunar <~ call "Solar.fromYmd.getLunar"
    (Calendar.Solar_fromYmd_getLunar calendar year month day) ;;
  let suitability := getSuitabilityItems lunar in
  ret {| sa_date := dateStr;
         sa_suitable := suitable suitability;
         sa_avoid := avoid suitability |}.

Variable tyme : Tyme.t.
Variable tyme4tsService : Tyme4tsAlmanac.t.

(** A number inside a template literal. *)
Variable numberToString : number -> string.

Definition SOLAR_TERMS : list string :=
  ["立春"; "雨水"; "惊蛰"; "春分"; "清明"; "谷雨";
   "立夏"; "小满"; "芒种"; "夏至"; "小暑"; "大暑";
   "立秋"; "处暑"; "白露"; "秋分"; "寒露"; "霜降";
   "立冬"; "小雪"; "大雪"; "冬至"; "小寒"; "大寒"].

(** [isLuckyDay(lunar)] *)
Definition luckyBuildings : list string :=
  ["除"; "危"; "定"; "执"; "成"; "开"].

Definition isLuckyDay (lunar : Lunar.t) : M bool :=
  twelveBuildings <~ call "tyme4ts.getTwelveBuildings"
    (Tyme4tsAlmanac.getTwelveBuildings tyme4tsService lunar) ;;
  ret (includes luckyBuildings twelveBuildings).

(** [getLuckyDayType(lunar)] *)
Definition typeMap : gmap string string :=
  list_to_map
    [ ("除", "除日：为除旧布新之象，宜除服、疗病、出行、嫁娶");
      ("危", "危日：为危险之意，宜祈福、安床、纳财，忌登高、行船");
      ("定", "定日：为安定之意，宜订婚、嫁娶、开业、安葬");
      ("执", "执日：为固执之意，宜捕捉、诉讼、嫁娶、纳财");
      ("成", "成日：为成功之意，宜开业、结婚、入学、安葬");
      ("开", "开日：为开始之意，宜开业、结婚、入学、旅行") ].

Definition getLuckyDayType (lunar : Lunar.t) : M string :=
  twelveBuildings <~ call "tyme4ts.getTwelveBuildings"
    (Tyme4tsAlmanac.getTwelveBuildings tyme4tsService lunar) ;;
  ret (or_string (typeMap !! twelveBuildings) "黄道吉日").

(** [getAuspiciousDirections(lunar)]: the day's ganzhi is asked for and not
    used. *)
Definition getAuspiciousDirections (lunar : Lunar.t) : M AlmanacDirection :=
  ganzhi <~ call "tyme4ts.getGanzhiDate"
    (Tyme4tsAlmanac.getGanzhiDate tyme4tsService lunar) ;;
  ret {| auspicious := ["东北"; "正南"];
         inauspicious := ["西北"; "正东"];
         caishen := "正北";
         xishen := "东南";
         guishen := "西南" |}.

(** [getZodiacInfo(lunar)] *)
Definition getZodiacInfo (lunar : Lunar.t) : M ZodiacInfo :=
  yearZodiac <~ call "tyme4ts.getChineseZodiac"
    (Tyme4tsAlmanac.getChineseZodiac tyme4tsService (Lunar.getYear lunar)) ;;
  dayZodiac <~ call "tyme4ts.getDayZodiac"
    (Tyme4tsAlmanac.getDayZodiac tyme4tsService lunar) ;;
  ret {| zi_year := yearZodiac;
         zi_day := dayZodiac;
         yearGanzhi := Tyme.Lunar_getYearInGanzhi tyme lunar +:+ "年";
         yearShengxiao := yearZodiac +:+ "年" |}.

(** [getJieQi(solar)] *)
Definition getJieQi (solar : Solar.t) : M (option JieQiInfo) :=
  jieqi <~ call "JieQi.fromSolar" (Tyme.JieQi_fromSolar tyme solar) ;;
  match jieqi with
  | Some jieqi =>
      ret (Some {| jq_name := JieQi.getName jieqi;
                   jq_date := Tyme.Solar_toYmd tyme (JieQi.getSolar jieqi) |})
  | None => ret None
  end.

(** [getFestivals(solar, lunar)] *)
Definition getFestivals (solar : Solar.t) (lunar : Lunar.t)
  : M (list string) :=
  let festivals := [] in
  solarFestivals <~ call "tyme4ts.getSolarFestivals"
    (Tyme4tsAlmanac.getSolarFestivals tyme4tsService solar) ;;
  let festivals :=
    if (0 <? length solarFestivals)%nat
    then festivals ++ solarFestivals else festivals in
  lunarFestivals <~ call "tyme4ts.getLunarFestivals"
    (Tyme4tsAlmanac.getLunarFestivals tyme4tsService lunar) ;;
  let festivals :=
    if (0 <? length lunarFestivals)%nat
    then festivals ++ lunarFestivals else festivals in
  ret festivals.

(** [getSolarTermDescription(termName)] *)
Definition descriptions : gmap string string :=
  list_to_map
    [ ("立春", "立春是二十四节气之首，标志着万物复苏的春季开始。");
      ("雨水", "雨水节气意味着降雨开始，雨量渐增。");
      ("惊蛰", "惊蛰时节，春雷始鸣，惊醒蛰伏于地下越冬的蛰虫。");
      ("春分", "春分这天昼夜平分，此后北半球白天渐长，夜晚渐短。");
      ("清明", "清明既是节气又是节日，有扫墓祭祖、踏青郊游的习俗。");
      ("谷雨", "谷雨是春季最后一个节气，此时降水明显增加，有利于谷物生长。");
      ("立夏", "立夏标志着夏季的开始，万物进入生长旺季。");
      ("小满", "小满时节，夏熟作物的籽粒开始灌浆饱满，但尚未成熟。");
      ("芒种", "芒种是夏季的第三个节气，此时正是南方种稻与北方收麦之时。");
      ("夏至", "夏至是北半球白昼最长、黑夜最短的一天。");
      ("小暑", "小暑表示夏季炎热天气的开始，但还未达到最热。");
      ("大暑", "大暑是一年中最热的节气，高温酷热，雷暴频繁。");
      ("立秋", "立秋标志着秋季的开始，暑去凉来。");
      ("处暑", "处暑意味着炎热即将过去，暑气逐渐消退。");
      ("白露", "白露时节，昼夜温差加大，空气中的水汽凝结成白露。");
      ("秋分", "秋分这天昼夜平分，此后北半球白天渐短，夜晚渐长。");
      ("寒露", "寒露时节，气温比白露时更低，地面的露水更冷，快要凝结成霜了。");
      ("霜降", "霜降是秋季的最后一个节气，意味着天气渐冷，开始有霜。");
      ("立冬", "立冬标志着冬季的开始，万物收藏，规避寒冷。");
      ("小雪", "小雪时节，气温下降，开始降雪，但雪量较小。");
      ("大雪", "大雪时节，雪量增大，气温显著下降。");
      ("冬至", "冬至是北半球白昼最短、黑夜最长的一天，此后白昼渐长。");
      ("小寒", "小寒是天气寒冷但还没有到极点的意思。");
      ("大寒", "大寒是一年中最冷的节气，寒潮南下频繁，气温极低。") ].

Definition getSolarTermDescription (termName : string) : string :=
  or_string (descriptions !! termName) (termName +:+ "是二十四节气之一。").

(** [getSolarTermCustoms(termName)] *)
Definition customsMap : gmap string (list string) :=
  list_to_map
    [ ("立春", ["迎春"; "打春"; "咬春"]);
      ("清明", ["扫墓祭祖"; "踏青"; "插柳"; "放风筝"]);
      ("冬至", ["吃饺子"; "吃汤圆"; "祭祖"]);
      ("腊八", ["喝腊八粥"; "腌腊八蒜"]);
      ("小年", ["扫尘"; "祭灶"]) ].

Definition getSolarTermCustoms (termName : string) : list string :=
  default [] (customsMap !! termName).

(** The [try] block of [getDailyAlmanac]. *)
Definition getDailyAlmanac_body (dateStr : string) : M AlmanacResult :=
  emit (EvLog ("查询黄历信息: " +:+ dateStr)) ;;;
  let nums := map (JsBuiltins.Number js) (split "-" dateStr) in
  let year := nums !! 0%nat in
  let month := nums !! 1%nat in
  let day := nums !! 2%nat in
  solar <~ call "Solar.fromYmd" (Tyme.Solar_fromYmd tyme year month day) ;;
  lunar <~ call "Solar.getLunar" (Tyme.Solar_getLunar tyme solar) ;;
  ganzhiDate <~ call "tyme4ts.getGanzhiDate"
    (Tyme4tsAlmanac.getGanzhiDate tyme4tsService lunar) ;;
  zodiac <~ getZodiacInfo lunar ;;
  let suitability := getSuitabilityItems lunar in
  directions <~ getAuspiciousDirections lunar ;;
  constellation <~ call "tyme4ts.getConstellation"
    (Tyme4tsAlmanac.getConstellation tyme4tsService month day) ;;
  festival <~ getFestivals solar lunar ;;
  jieqi <~ getJieQi solar ;;
  pengZuBaiJi <~ call "tyme4ts.getPengZuBaiJi"
    (Tyme4tsAlmanac.getPengZuBaiJi tyme4tsService (dayGan ganzhiDate)
       (dayZhi ganzhiDate)) ;;
  gods <~ call "tyme4ts.getDayGods"
    (Tyme4tsAlmanac.getDayGods tyme4tsService lunar) ;;
  twelveBuildings <~ call "tyme4ts.getTwelveBuildings"
    (Tyme4tsAlmanac.getTwelveBuildings tyme4tsService lunar) ;;
  lunarMansion <~ call "tyme4ts.getLunarMansion"
    (Tyme4tsAlmanac.getLunarMansion tyme4tsService lunar) ;;
  ret {| a_solar := solar;
         a_lunar :=
           {| li_year := Lunar.getYear lunar;
              li_month := Lunar.getMonth lunar;
              li_day := Lunar.getDay lunar;
              leap := Tyme.Lunar_isLeap tyme lunar;
              monthName := Tyme.Lunar_getMonthInChinese tyme lunar;
              dayName := Tyme.Lunar_getDayInChinese tyme lunar |};
         a_ganzhi := ganzhiDate;
         a_zodiac := zodiac;
         a_constellation := constellation;
         a_jieqi := jieqi;
         festival := festival;
         suitability := suitability;
         directions := directions;
         pengZuBaiJi := pengZuBaiJi;
         gods := gods;
         twelveBuildings := twelveBuildings;
         lunarMansion := lunarMansion |}.

(** [getDailyAlmanac(dateStr)] *)
Definition getDailyAlmanac (dateStr : string) : M AlmanacResult :=
  tryCatch (getDailyAlmanac_body dateStr)
    (fun message =>
       emit (EvError "黄历信息查询失败") ;;;
       throw ("黄历查询失败: " +:+ message)).

(** One turn of the loop of [getLuckyDays], for the day of the month [day];
    [luckyDays] is the array built so far. *)
Definition luckyDays_step (year month : number) (day : Z)
    (luckyDays : list LuckyDay) : M (list LuckyDay) :=
  solar <~ call "Solar.fromYmd"
    (Tyme.Solar_fromYmd tyme (Some year) (Some month) (Some (Int day))) ;;
  lunar <~ call "Solar.getLunar" (Tyme.Solar_getLunar tyme solar) ;;
  isLucky <~ isLuckyDay lunar ;;
  if isLucky then
    let suitability := getSuitabilityItems lunar in
    ganzhi1 <~ call "tyme4ts.getGanzhiDate"
      (Tyme4tsAlmanac.getGanzhiDate tyme4tsService lunar) ;;
    ganzhi2 <~ call "tyme4ts.getGanzhiDate"
      (Tyme4tsAlmanac.getGanzhiDate tyme4tsService lunar) ;;
    type <~ getLuckyDayType lunar ;;
    ret (luckyDays
         ++ [ {| ld_date := Tyme.Solar_toYmd tyme solar;
                 ld_lunarDate :=
                   Tyme.Lunar_getMonthInChinese tyme lunar
                   +:+ Tyme.Lunar_getDayInChinese tyme lunar;
                 ld_ganzhi := dayGan ganzhi1 +:+ dayZhi ganzhi2;
                 ld_suitable := suitable suitability;
                 luckyType := type |} ])
  else ret luckyDays.

(** [for (let day = ...; day <= daysInMonth; day++)], with [n] turns left. *)
Fixpoint luckyDays_loop (year month : number) (n : nat) (day : Z)
    (luckyDays : list LuckyDay) : M (list LuckyDay) :=
  match n with
  | O => ret luckyDays
  | S n' =>
      luckyDays' <~ luckyDays_step year month day luckyDays ;;
      luckyDays_loop year month n' (day + 1)%Z luckyDays'
  end.

(** The [try] block of [getLuckyDays]. *)
Definition getLuckyDays_body (year month : number) : M LuckyDayResult :=
  emit (EvLog ("查询" +:+ numberToString year +:+ "年"
               +:+ numberToString month +:+ "月黄道吉日")) ;;;
  solarMonth <~ call "Solar.fromYmd"
    (Tyme.Solar_fromYmd tyme (Some year) (Some month) (Some (Int 1))) ;;
  let daysInMonth := Tyme.Solar_monthLength tyme solarMonth in
  luckyDays <~ luckyDays_loop year month (Z.to_nat daysInMonth) 1 [] ;;
  ret {| ldr_year := year;
         ldr_month := month;
         count := length luckyDays;
         days := luckyDays |}.

(** [getLuckyDays(year, month)] *)
Definition getLuckyDays (year month : number) : M LuckyDayResult :=
  tryCatch (getLuckyDays_body year month)
    (fun message =>
       emit (EvError "黄道吉日查询失败") ;;;
       throw ("黄道吉日查询失败: " +:+ message)).

(** One turn of the loop of [getSolarTerms], for the index [i]. *)
Definition solarTerms_step (year : number) (i : nat) (terms : list SolarTerm)
  : M (list SolarTerm) :=
  jieqi <~ call "JieQi.fromYearTerm"
    (Tyme.JieQi_fromYearTerm tyme year (Z.of_nat i + 1)) ;;
  let solar := JieQi.getSolar jieqi in
  let termName := default "undefined" (SOLAR_TERMS !! i) in
  ret (terms
       ++ [ {| term_name := termName;
               term_date := Tyme.Solar_toYmd tyme solar;
               term_time := Tyme.Solar_toHms tyme solar;
               description := getSolarTermDescription termName;
               customs := getSolarTermCustoms termName |} ]).

(** [for (let i = ...; i < 24; i++)], with [n] turns left. *)
Fixpoint solarTerms_loop (year : number) (n : nat) (i : nat)
    (terms : list SolarTerm) : M (list SolarTerm) :=
  match n with
  | O => ret terms
  | S n' =>
      terms' <~ solarTerms_step year i terms ;;
      solarTerms_loop year n' (S i) terms'
  end.

(** [terms.find(t => t.name === termName)?.date] *)
Definition seasonStart (termName : string) (terms : list SolarTerm)
  : option string :=
  term_date <$> List.find (fun t => String.eqb (term_name t) termName) terms.

(** The [try] block of [getSolarTerms]. *)
Definition getSolarTerms_body (year : number) : M SolarTermResult :=
  emit (EvLog ("查询" +:+ numberToString year +:+ "年节气信息")) ;;;
  terms <~ solarTerms_loop year 24 0 [] ;;
  ret {| str_year := year;
         terms := terms;
         springStart := seasonStart "立春" terms;
         summerStart := seasonStart "立夏" terms;
         autumnStart := seasonStart "立秋" terms;
         winterStart := seasonStart "立冬" terms |}.

(** [getSolarTerms(year)] *)
Definition getSolarTerms (year : number) : M SolarTermResult :=
  tryCatch (getSolarTerms_body year)
    (fun message =>
       emit (EvError "节气信息查询失败") ;;;
       throw ("节气查询失败: " +:+ message)).

End Service.
End AlmanacService.

(* ===================================================================== *)
(** ** The parts of IztroService that the specification describes *)
(* ===================================================================== *)

Module IztroModel.

(** Modelled from the spec: the canonical palace names of the ring, at
    positions 1 to 12 (data model, "命宫, 兄弟宫, …, 父母宫"); the twelve
    names are the keys of [significanceMap], in its order. The service that
    holds the table (services/iztro/iztro.service.ts) is not among the
    sources. *)
Definition canonicalPalaces : list string :=
  ["命宫"; "兄弟宫"; "夫妻宫"; "子女宫"; "财帛宫"; "疾厄宫";
   "迁移宫"; "交友宫"; "官禄宫"; "田宅宫"; "福德宫"; "父母宫"].

(** Modelled from the spec: the palace at a ring position 1..12. *)
Definition palaceAt (p : Z) : option string :=
  if (p <? 1)%Z then None else canonicalPalaces !! Z.to_nat (p - 1).

Fixpoint index_from (i : Z) (n : string) (l : list string) : option Z :=
  match l with
  | [] => None
  | x :: rest => if String.eqb x n then Some i else index_from (i + 1) n rest
  end.

(** Modelled from the spec: the ring position of a canonical name. *)
Definition positionOf (n : string) : option Z :=
  index_from 1 n canonicalPalaces.

(** Modelled from the spec: the position [k] steps further on the cyclic
    ring of twelve. *)
Definition ringShift (p k : Z) : Z := ((p - 1 + k) mod 12 + 1)%Z.

Definition namesAt (ps : list Z) : list string :=
  omap palaceAt ps.

(** Modelled from the spec: [IztroService.getTripleSquarePalaces], absent
    from the sources. Section 4.1: the triplicate neighbours are the two
    palaces at cyclic offsets +4 and -4, the square neighbour is the palace
    at cyclic offset +6, [allRelatedPalaces] is their union with the palace
    itself, and an unknown name fails with InvalidPalaceError. *)
Definition getTripleSquarePalaces (palaceName : string)
  : result TripleSquare :=
  match positionOf palaceName with
  | None => Throw "InvalidPalaceError"
  | Some p =>
      let triple := namesAt [ringShift p 4; ringShift p (-4)] in
      let square := namesAt [ringShift p 6] in
      Ok {| originalPalace := palaceName;
            triplePalaces := triple;
            squarePalaces := square;
            allRelatedPalaces :=
              remove_dups (palaceName :: triple ++ square) |}
  end.

(** Modelled from the spec: one step of the palace-location scan of
    section 4.4, for one (star, type) pair: all palaces' star lists are
    scanned, and the pair is recorded under the name of the palace that
    holds the star. *)
Definition place (palaces : list Palace)
    (acc : gmap string (list Transformation)) (t : Transformation)
  : gmap string (list Transformation) :=
  fold_left
    (fun acc palace =>
       if includes (stars palace) (star t)
       then append_at acc (name palace) t
       else acc)
    palaces acc.

(** Modelled from the spec: [IztroService.findTransformationPalaces], absent
    from the sources. Section 4.4: each (star, type) pair is resolved
    against the chart in turn; the result maps a palace name to the list of
    transformations landing there, and a pair whose star is in no palace is
    left out. *)
Definition findTransformationPalaces (ts : list Transformation)
    (palaces : list Palace) : gmap string (list Transformation) :=
  fold_left (place palaces) ts ∅.

End IztroModel.

(* ===================================================================== *)
(** ** A fixture: canned collaborators, as a unit test would inject them *)
(* ===================================================================== *)

Module Fixture.

Definition digit (c : ascii) : option Z :=
  let n := Z.of_N (N_of_ascii c) in
  if (48 <=? n)%Z && (n <=? 57)%Z then Some (n - 48)%Z else None.

Fixpoint digits (acc : Z) (s : string) : number :=
  match s with
  | EmptyString => Int acc
  | String c rest =>
      match digit c with
      | Some d => digits (10 * acc + d)%Z rest
      | None => NaN
      end
  end.

Definition decimal (s : string) : number :=
  match s with
  | EmptyString => NaN
  | _ => digits 0 s
  end.

Definition js : JsBuiltins.t :=
  {| JsBuiltins.Number := decimal;
     JsBuiltins.parseInt := fun o => from_option decimal NaN o;
     JsBuiltins.JSON_stringify := fun dto => birthDate dto;
     JsBuiltins.toISOString := fun _ => "2026-01-01T00:00:00.000Z" |}.

Definition fromYmd (y m d : option number) : result Lunar.t :=
  match y, m, d with
  | Some (Int y), Some (Int m), Some (Int d) => Ok (Lunar.mk y m d)
  | _, _, _ => Throw "invalid date"
  end.

Definition calendar : Calendar.t :=
  {| Calendar.Solar_fromYmd_getLunar := fromYmd;
     Calendar.Lunar_fromYmd := fromYmd |}.

(** A calendar whose conversions fail with [message]. *)
Definition failingCalendar (message : string) : Calendar.t :=
  {| Calendar.Solar_fromYmd_getLunar := fun _ _ _ => Throw message;
     Calendar.Lunar_fromYmd := fun _ _ _ => Throw message |}.

Definition pillars : FourPillars :=
  {| year := mkPillar "甲" "午";
     month := mkPillar "己" "巳";
     day := mkPillar "庚" "辰";
     hour := mkPillar "庚" "辰" |}.

Definition tyme4ts : Tyme4tsService.t :=
  {| Tyme4tsService.calculateFourPillars := fun _ _ _ _ _ _ => Ok pillars;
     Tyme4tsService.getChineseZodiac := fun _ => Ok "马";
     Tyme4tsService.getConstellation := fun _ _ => Ok "金牛座" |}.

Definition chart : list Palace :=
  [ mkPalace "命宫" 1 ["紫微"; "天府"; "天马"];
    mkPalace "兄弟宫" 2 [];
    mkPalace "夫妻宫" 3 ["文昌"; "擎羊"; "太阳"] ].

Definition decades : list LuckPeriod :=
  [ mkLuckPeriod 0 10 "命宫" "0-10";
    mkLuckPeriod 10 20 "兄弟宫" "10-20";
    mkLuckPeriod 20 30 "夫妻宫" "20-30" ].

Definition marker (kind : string) (lunarDate : Lunar.t) (y : Z) : LuckPeriod :=
  mkLuckPeriod (y - Lunar.getYear lunarDate) (y - Lunar.getYear lunarDate)
    "命宫" kind.

Definition stemTable (s : string) : list Transformation :=
  if String.eqb s "甲"
  then [ mkTransformation "廉贞" "huaxing"; mkTransformation "破军" "huaquan";
         mkTransformation "武曲" "huake"; mkTransformation "太阳" "huaji" ]
  else if String.eqb s "庚"
  then [ mkTransformation "太阳" "huaxing"; mkTransformation "武曲" "huaquan";
         mkTransformation "太阴" "huake"; mkTransformation "天同" "huaji" ]
  else [].

Definition iztro : IztroService.t :=
  {| IztroService.calculateZiweiChart := fun _ => Ok (mkZiweiData chart);
     IztroService.calculateMajorPeriods := fun _ _ => Ok decades;
     IztroService.calculateMinorPeriod :=
       fun lunarDate _ y => Ok (marker "minor" lunarDate y);
     IztroService.calculateAnnualPeriod :=
       fun lunarDate y _ => Ok (marker "annual" lunarDate y);
     IztroService.calculateMonthlyPeriod :=
       fun lunarDate y _ _ => Ok (marker "monthly" lunarDate y);
     IztroService.calculateDailyPeriod :=
       fun lunarDate now _ =>
         Ok (marker "daily" lunarDate (JsDate.getFullYear now));
     IztroService.calculateHourlyPeriod :=
       fun lunarDate now _ =>
         Ok (marker "hourly" lunarDate (JsDate.getFullYear now));
     IztroService.isMainStar :=
       includes ["紫微"; "天机"; "太阳"; "武曲"; "天同"; "廉贞"; "天府";
                 "太阴"; "贪狼"; "巨门"; "天相"; "天梁"; "七杀"; "破军"];
     IztroService.isLuckyStar :=
       includes ["文昌"; "文曲"; "左辅"; "右弼"; "天魁"; "天钺"; "太阳"];
     IztroService.isEvilStar :=
       includes ["擎羊"; "陀罗"; "火星"; "铃星"; "地空"; "地劫"];
     IztroService.getKeyStarsLocation := fun _ => ∅;
     IztroService.getTransformationsByStem := stemTable;
     IztroService.findTransformationPalaces :=
       IztroModel.findTransformationPalaces;
     IztroService.getTripleSquarePalaces :=
       IztroModel.getTripleSquarePalaces;
     IztroService.getStarTransformation :=
       fun s => if String.eqb s "紫微"
                then Some (mkStarTransformation "huaquan" "化权")
                else None |}.

(** The same service with a chart computation that fails with [message]. *)
Definition iztroFailingChart (message : string) : IztroService.t :=
  {| IztroService.calculateZiweiChart := fun _ => Throw message;
     IztroService.calculateMajorPeriods :=
       IztroService.calculateMajorPeriods iztro;
     IztroService.calculateMinorPeriod :=
       IztroService.calculateMinorPeriod iztro;
     IztroService.calculateAnnualPeriod :=
       IztroService.calculateAnnualPeriod iztro;
     IztroService.calculateMonthlyPeriod :=
       IztroService.calculateMonthlyPeriod iztro;
     IztroService.calculateDailyPeriod :=
       IztroService.calculateDailyPeriod iztro;
     IztroService.calculateHourlyPeriod :=
       IztroService.calculateHourlyPeriod iztro;
     IztroService.isMainStar := IztroService.isMainStar iztro;
     IztroService.isLuckyStar := IztroService.isLuckyStar iztro;
     IztroService.isEvilStar := IztroService.isEvilStar iztro;
     IztroService.getKeyStarsLocation :=
       IztroService.getKeyStarsLocation iztro;
     IztroService.getTransformationsByStem :=
       IztroService.getTransformationsByStem iztro;
     IztroService.findTransformationPalaces :=
       IztroService.findTransformationPalaces iztro;
     IztroService.getTripleSquarePalaces :=
       IztroService.getTripleSquarePalaces iztro;
     IztroService.getStarTransformation :=
       IztroService.getStarTransformation iztro |}.

Definition dto : CalculateZiweiDto :=
  {| birthDate := "1990-05-15";
     dateType := "solar";
     birthTime := "08:30";
     birthPlace := "北京";
     gender := "male" |}.

Definition birth : Lunar.t := Lunar.mk 1990 4 21.

(** A clock that stands still in a given year. *)
Definition worldIn (y : Z) : World :=
  {| clock := fun _ => JsDate.mk y 10 1 12 0; reads := 0; trace := [] |}.

(** A later state of the same service: events behind it, clock readings
    already taken, the clock standing still in the same year. *)
Definition laterWorldIn (y : Z) : World :=
  {| clock := fun _ => JsDate.mk y 10 1 12 0;
     reads := 7;
     trace := [EvLog "紫微斗数星盘计算完成"] |}.

End Fixture.

(* ===================================================================== *)
(** ** Vocabulary of the statements *)
(* ===================================================================== *)

(** A collaborator's answer is a value, not an exception. *)
Definition isOk {A} (r : result A) : bool :=
  match r with Ok _ => true | Throw _ => false end.

(** [age] lies in the half-open range of a period. *)
Definition InRange (age : Z) (p : LuckPeriod) : Prop :=
  (startAge p <= age < endAge p)%Z.

(** [p] is the first period of [periods] whose range holds [age]. *)
Definition FirstInRange (age : Z) (periods : list LuckPeriod) (p : LuckPeriod)
  : Prop :=
  exists before after,
    periods = before ++ p :: after /\
    Forall (fun q => ~ InRange age q) before /\
    InRange age p.

(** The stars of the palaces called [n], in chart order. *)
Definition starsAt (n : string) (palaces : list Palace) : list string :=
  flat_map (fun p => if String.eqb (name p) n then stars p else []) palaces.

(** A dictionary entry as a list: a missing key reads as no element, and a
    key is only ever created with an element. *)
Definition entry {V} (l : list V) : option (list V) :=
  match l with [] => None | _ => Some l end.

(** The transformations of [ts] that land in a palace called [n]: one
    occurrence per palace of that name holding the star. *)
Definition landings (n : string) (palaces : list Palace)
    (ts : list Transformation) : list Transformation :=
  flat_map
    (fun t =>
       flat_map
         (fun p =>
            if includes (stars p) (star t) && String.eqb (name p) n
            then [t] else [])
         palaces)
    ts.

(** The three tests of [organizeStarInfo] as the [if]/[else if] chain reads
    them: a star reaches a later test only when the earlier ones failed. *)
Definition toMain (iz : IztroService.t) (s : string) : bool :=
  IztroService.isMainStar iz s.
Definition toLucky (iz : IztroService.t) (s : string) : bool :=
  negb (IztroService.isMainStar iz s) && IztroService.isLuckyStar iz s.
Definition toEvil (iz : IztroService.t) (s : string) : bool :=
  negb (IztroService.isMainStar iz s) && negb (IztroService.isLuckyStar iz s)
  && IztroService.isEvilStar iz s.

(** The star is in one of the three category tables. *)
Definition inSomeTable (iz : IztroService.t) (s : string) : bool :=
  IztroService.isMainStar iz s || IztroService.isLuckyStar iz s
  || IztroService.isEvilStar iz s.

(** The lists of the three dictionaries under one palace name. *)
Definition view (b : ZiweiService.Buckets) (n : string)
  : list string * list string * list string :=
  (default [] (b.1.1 !! n), default [] (b.1.2 !! n), default [] (b.2 !! n)).

Definition sort3 (iz : IztroService.t) (l : list string)
  : list string * list string * list string :=
  (List.filter (toMain iz) l, List.filter (toLucky iz) l,
   List.filter (toEvil iz) l).

Definition app3 {A} (x y : list A * list A * list A)
  : list A * list A * list A :=
  (x.1.1 ++ y.1.1, x.1.2 ++ y.1.2, x.2 ++ y.2).

(** No key of the dictionary holds an empty list. *)
Definition noEmptyEntry {V} (m : gmap string (list V)) : Prop :=
  forall n, m !! n <> Some [].

Definition goodBuckets (b : ZiweiService.Buckets) : Prop :=
  noEmptyEntry b.1.1 /\ noEmptyEntry b.1.2 /\ noEmptyEntry b.2.

(** The event is not a collaborator call that threw. *)
Definition returned (ev : Event) : Prop :=
  match ev with EvCall _ (Some _) => False | _ => True end.

(** The collaborator methods called, in order. *)
Definition calls (evs : list Event) : list string :=
  flat_map (fun ev => match ev with EvCall m _ => [m] | _ => [] end) evs.

(** The collaborator methods that threw, in order. *)
Definition failedCalls (evs : list Event) : list string :=
  flat_map (fun ev => match ev with EvCall m (Some _) => [m] | _ => [] end)
    evs.

(** A computation keeps to the protocol [ms] when the collaborator methods it
    calls form a subsequence of [ms], every call before the end returned, and
    it throws exactly when its last event is a collaborator call that threw
    the same message. *)
Definition Protocol {A} (ms : list string) (m : M A) : Prop :=
  forall w, exists evs,
    trace (fst (m w)) = trace w ++ evs
    /\ calls evs `sublist_of` ms
    /\ match snd (m w) with
       | Ok _ => Forall returned evs
       | Throw e =>
           exists before method,
             evs = before ++ [EvCall method (Some e)]
             /\ Forall returned before
       end.

(** The collaborator methods of [calculateZiweiChart], in program order (the
    two calendar conversions are alternatives). *)
Definition chartMethods : list string :=
  [ "Solar.fromYmd.getLunar"; "Lunar.fromYmd";
    "tyme4ts.calculateFourPillars"; "tyme4ts.getChineseZodiac";
    "tyme4ts.getConstellation"; "iztro.calculateZiweiChart";
    "iztro.calculateMajorPeriods"; "iztro.calculateMinorPeriod";
    "iztro.calculateAnnualPeriod"; "iztro.calculateMonthlyPeriod";
    "iztro.calculateDailyPeriod"; "iztro.calculateHourlyPeriod" ].

(** Sequencing of collaborator answers outside the monad. *)
Definition andThen {A B} (r : result A) (k : A -> result B) : result B :=
  match r with Ok a => k a | Throw e => Throw e end.

(** What [generateLuckPeriods] computes from its arguments and from the four
    clock readings it takes, in the order it takes them. *)
Definition periodsAt (iz : IztroService.t) (lunarDate : Lunar.t)
    (gender : string) (palaces : list Palace) (now1 now2 now3 now4 : JsDate.t)
  : result (LuckPeriods * option LuckPeriod) :=
  let currentYear := JsDate.getFullYear now1 in
  let age := (currentYear - Lunar.getYear lunarDate)%Z in
  let g := if String.eqb gender "male" then "man" else "woman" in
  andThen (IztroService.calculateMajorPeriods iz lunarDate g) (fun majorPeriods =>
  andThen (IztroService.calculateMinorPeriod iz lunarDate g currentYear) (fun minorPeriod =>
  andThen (IztroService.calculateAnnualPeriod iz lunarDate currentYear palaces) (fun annualPeriod =>
  andThen (IztroService.calculateMonthlyPeriod iz lunarDate currentYear
             (JsDate.getMonth now2 + 1)%Z palaces) (fun monthlyPeriod =>
  andThen (IztroService.calculateDailyPeriod iz lunarDate now3 palaces) (fun dailyPeriod =>
  andThen (IztroService.calculateHourlyPeriod iz lunarDate now4 palaces) (fun hourlyPeriod =>
  Ok (mkLuckPeriods majorPeriods minorPeriod annualPeriod monthlyPeriod
        dailyPeriod hourlyPeriod,
      match List.find
              (fun period =>
                 (age >=? startAge period)%Z && (age <? endAge period)%Z)
              majorPeriods with
      | Some period => Some period
      | None => majorPeriods !! 0%nat
      end))))))).

(** The period synthesizer as section 4.2 of the specification words it: a
    function of the birth moment, the chart's palaces, the gender and an
    as-of moment. *)
Module Spec.

(** "the first period with startAge <= age < endAge" *)
Fixpoint firstContaining (age : Z) (periods : list LuckPeriod)
  : option LuckPeriod :=
  match periods with
  | [] => None
  | p :: rest =>
      if (startAge p <=? age)%Z && (age <? endAge p)%Z then Some p
      else firstContaining age rest
  end.

(** "if none matches, fall back to the first period in the sequence" *)
Definition activeMajor (age : Z) (periods : list LuckPeriod)
  : option LuckPeriod :=
  match firstContaining age periods with
  | Some p => Some p
  | None => head periods
  end.

Definition synthesize (iz : IztroService.t) (birthMoment : Lunar.t)
    (chartPalaces : list Palace) (gender : string) (asOf : JsDate.t)
  : result (LuckPeriods * option LuckPeriod) :=
  let g := if String.eqb gender "male" then "man" else "woman" in
  let asOfYear := JsDate.getFullYear asOf in
  let asOfMonth := (JsDate.getMonth asOf + 1)%Z in
  andThen (IztroService.calculateMajorPeriods iz birthMoment g) (fun major =>
  andThen (IztroService.calculateMinorPeriod iz birthMoment g asOfYear) (fun minor =>
  andThen (IztroService.calculateAnnualPeriod iz birthMoment asOfYear chartPalaces) (fun annual =>
  andThen (IztroService.calculateMonthlyPeriod iz birthMoment asOfYear asOfMonth chartPalaces) (fun monthly =>
  andThen (IztroService.calculateDailyPeriod iz birthMoment asOf chartPalaces) (fun daily =>
  andThen (IztroService.calculateHourlyPeriod iz birthMoment asOf chartPalaces) (fun hourly =>
  Ok (mkLuckPeriods major minor annual monthly daily hourly,
      activeMajor (asOfYear - Lunar.getYear birthMoment) major))))))).

End Spec.

(** What justifies one entry of [details]: a palace of the mock chart that is
    among the related palaces, one of its mock stars, and the transformation
    of the asked type that the star table gives for it. *)
Definition Justified (iz : IztroService.t) (related : TripleSquare)
    (transformationType : TransformationType) (d : TransformationDetail)
  : Prop :=
  In (d_palace d) (allRelatedPalaces related)
  /\ (exists mockStars,
        In (d_palace d, mockStars) ZiweiService.mockPalaces
        /\ In (d_star d) mockStars)
  /\ (exists t,
        IztroService.getStarTransformation iz (d_star d) = Some t
        /\ st_type t = TransformationType_string transformationType
        /\ d_transformation d = st_name t).

(** The character occurs in the string. *)
Fixpoint occurs (c : ascii) (s : string) : bool :=
  match s with
  | EmptyString => false
  | String x rest => Ascii.eqb x c || occurs c rest
  end.

(** The period computations of [generateLuckPeriods], in program order. *)
Definition periodCallOrder : list string :=
  [ "iztro.calculateMajorPeriods"; "iztro.calculateMinorPeriod";
    "iztro.calculateAnnualPeriod"; "iztro.calculateMonthlyPeriod";
    "iztro.calculateDailyPeriod"; "iztro.calculateHourlyPeriod" ].

(** The collaborator calls of a run of [calculateZiweiChart] that gets
    through, in program order; the date type selects the calendar method. *)
Definition chartCallOrder (dateType : string) : list string :=
  [ if String.eqb dateType "solar"
    then "Solar.fromYmd.getLunar" else "Lunar.fromYmd";
    "tyme4ts.calculateFourPillars"; "tyme4ts.getChineseZodiac";
    "tyme4ts.getConstellation"; "iztro.calculateZiweiChart" ]
  ++ periodCallOrder.

(** The events of calls that returned. *)
Definition returnedCalls (ms : list string) : list Event :=
  map (fun m => EvCall m None) ms.

(* ===================================================================== *)
(** ** Running the monad *)
(* ===================================================================== *)

Lemma bind_inv_Ok {A B} (m : M A) (k : A -> M B) w w2 b :
  bind m k w = (w2, Ok b) ->
  exists w1 a, m w = (w1, Ok a) /\ k a w1 = (w2, Ok b).
Proof.
  unfold bind. destruct (m w) as [w1 [a | e]]; intros H.
  - exists w1, a. auto.
  - discriminate.
Qed.

Lemma call_inv_Ok {A} (method : string) (r : result A) w w1 a :
  call method r w = (w1, Ok a) ->
  r = Ok a
  /\ w1 = mkWorld (clock w) (reads w) (trace w ++ [EvCall method None]).
Proof. unfold call. intros H. inversion H; subst. auto. Qed.

Lemma isOk_true {A} (r : result A) : isOk r = true -> exists a, r = Ok a.
Proof. destruct r; simpl; [eauto | discriminate]. Qed.

(* ===================================================================== *)
(** ** Palace directions *)
(* ===================================================================== *)

Lemma js_rem_shift_8 (p : Z) :
  (1 <= p)%Z -> js_rem (p + 8 - 1) 8 = js_rem (p - 1) 8.
Proof.
  intros Hp. unfold js_rem.
  rewrite !Z.rem_mod_nonneg by lia.
  replace (p + 8 - 1)%Z with (p - 1 + 1 * 8)%Z by lia.
  apply Z_mod_plus_full.
Qed.

Lemma valid_position_cases (p : Z) :
  (1 <= p <= 12)%Z ->
  In p [1; 2; 3; 4; 5; 6; 7; 8; 9; 10; 11; 12]%Z.
Proof. intros H. simpl. lia. Qed.

(** C5, as the claim states it, fails: with the wraparound of the ring of
    twelve, position 5 + 8 is position 1, and positions 5 and 1 have
    different directions. *)
Lemma C5_wraparound_counterexample :
  ~ (forall p : Z, (1 <= p <= 12)%Z ->
       ZiweiService.getPalaceDirection p
       = ZiweiService.getPalaceDirection (IztroModel.ringShift p 8)).
Proof.
  intros H. specialize (H 5%Z ltac:(lia)).
  vm_compute in H. discriminate H.
Qed.

(** C5, amended: for every position p >= 1 (so for all of 1..12) the direction
    of p + 8, taken as a plain integer, is the direction of p; position 9 has
    the direction of position 1; and when p + 8 is wrapped onto the ring of
    twelve, the two directions agree exactly for p in 1..4. *)
Theorem C5_direction_period_8 (p : Z) :
  (1 <= p)%Z ->
  ZiweiService.getPalaceDirection (p + 8) = ZiweiService.getPalaceDirection p
  /\ ZiweiService.getPalaceDirection 9 = ZiweiService.getPalaceDirection 1
  /\ ((p <= 12)%Z ->
      (ZiweiService.getPalaceDirection (IztroModel.ringShift p 8)
       = ZiweiService.getPalaceDirection p <-> (p <= 4)%Z)).
Proof.
  intros Hp. split; [| split].
  - unfold ZiweiService.getPalaceDirection. now rewrite js_rem_shift_8.
  - reflexivity.
  - intros Hle.
    pose proof (valid_position_cases p (conj Hp Hle)) as Hin.
    simpl in Hin.
    repeat (destruct Hin as [<- | Hin];
            [ split;
              [ intros E; try lia; vm_compute in E; discriminate E
              | intros L; try lia; reflexivity ] | ]).
    contradiction.
Qed.

Lemma C5_direction_period_8_witness :
  (1 <= 3)%Z /\
  ZiweiService.getPalaceDirection (3 + 8) = ZiweiService.getPalaceDirection 3.
Proof.
  split; [lia |].
  exact (proj1 (C5_direction_period_8 3 ltac:(lia))).
Defined.

(* ===================================================================== *)
(** ** The active major period *)
(* ===================================================================== *)

Lemma inRange_spec (age : Z) (p : LuckPeriod) :
  (age >=? startAge p)%Z && (age <? endAge p)%Z = true <-> InRange age p.
Proof.
  unfold InRange. rewrite andb_true_iff, Z.geb_le, Z.ltb_lt. tauto.
Qed.

Lemma find_first_match {A} (f : A -> bool) (before after : list A) (p : A) :
  Forall (fun q => f q = false) before -> f p = true ->
  List.find f (before ++ p :: after) = Some p.
Proof.
  induction before as [| q before IH]; intros Hb Hp; simpl.
  - now rewrite Hp.
  - inversion Hb as [| ? ? Hq Hrest]; subst. rewrite Hq. now apply IH.
Qed.

Lemma find_no_match {A} (f : A -> bool) (l : list A) :
  (forall q, In q l -> f q = false) -> List.find f l = None.
Proof.
  induction l as [| q l IH]; intros H; simpl; [reflexivity |].
  rewrite (H q) by now left. apply IH. intros q' Hq'. apply H. now right.
Qed.

(** C1: when the period collaborators answer, [generateLuckPeriods] takes
    age = currentYear - birthYear (the year of the clock reading, the year of
    the lunar birth date) and selects as active major period the first period
    of the list with startAge <= age < endAge; when no period holds the age it
    takes the first period of the list (none for an empty list), and no error
    arises from the selection. *)
Theorem C1_active_major_period
    (iz : IztroService.t) (lunarDate : Lunar.t) (gender : string)
    (palaces : list Palace) (w : World) (periods : list LuckPeriod) :
  IztroService.calculateMajorPeriods iz lunarDate
    (if String.eqb gender "male" then "man" else "woman") = Ok periods ->
  (forall g y,
     isOk (IztroService.calculateMinorPeriod iz lunarDate g y) = true) ->
  (forall y,
     isOk (IztroService.calculateAnnualPeriod iz lunarDate y palaces) = true) ->
  (forall y m,
     isOk (IztroService.calculateMonthlyPeriod iz lunarDate y m palaces)
     = true) ->
  (forall d,
     isOk (IztroService.calculateDailyPeriod iz lunarDate d palaces) = true) ->
  (forall d,
     isOk (IztroService.calculateHourlyPeriod iz lunarDate d palaces) = true) ->
  let age :=
    (JsDate.getFullYear (clock w (reads w)) - Lunar.getYear lunarDate)%Z in
  exists r active,
    outcome (ZiweiService.generateLuckPeriods_locals iz lunarDate gender
               palaces w) = Ok (r, active)
    /\ major r = periods
    /\ (forall p, FirstInRange age periods p -> active = Some p)
    /\ ((forall p, In p periods -> ~ InRange age p) -> active = head periods).
Proof.
  intros Hmajor Hminor Hannual Hmonthly Hdaily Hhourly age.
  unfold ZiweiService.generateLuckPeriods_locals, outcome.
  unfold bind at 1. cbn [newDate].
  unfold bind at 1. unfold call at 1. rewrite Hmajor.
  unfold bind at 1. unfold call at 1.
  destruct (isOk_true _ (Hminor
    (if String.eqb gender "male" then "man" else "woman")
    (JsDate.getFullYear (clock w (reads w))))) as [mi ->].
  unfold bind at 1. unfold call at 1.
  destruct (isOk_true _ (Hannual (JsDate.getFullYear (clock w (reads w)))))
    as [an ->].
  unfold bind at 1. cbn [newDate clock reads trace].
  unfold bind at 1. unfold call at 1.
  destruct (isOk_true _ (Hmonthly (JsDate.getFullYear (clock w (reads w)))
    (JsDate.getMonth (clock w (S (reads w))) + 1)%Z)) as [mo ->].
  unfold bind at 1. cbn [newDate clock reads trace].
  unfold bind at 1. unfold call at 1.
  destruct (isOk_true _ (Hdaily (clock w (S (S (reads w)))))) as [da ->].
  unfold bind at 1. cbn [newDate clock reads trace].
  unfold bind at 1. unfold call at 1.
  destruct (isOk_true _ (Hhourly (clock w (S (S (S (reads w))))))) as [ho ->].
  cbn [ret snd].
  eexists _, _. split; [reflexivity |]. cbn [major].
  split; [reflexivity |]. fold age. split.
  - intros p (before & after & -> & Hbefore & Hp).
    rewrite (find_first_match _ before after p); [reflexivity | |].
    + eapply Forall_impl; [exact Hbefore |].
      intros q Hq. simpl in Hq.
      destruct ((age >=? startAge q)%Z && (age <? endAge q)%Z) eqn:E;
        [| reflexivity].
      apply inRange_spec in E. contradiction.
    + now apply inRange_spec.
  - intros Hnone. rewrite find_no_match.
    + now destruct periods.
    + intros q Hq.
      destruct ((age >=? startAge q)%Z && (age <? endAge q)%Z) eqn:E;
        [| reflexivity].
      apply inRange_spec in E. now apply Hnone in E.
Qed.

Lemma C1_active_major_period_witness :
  exists r active,
    outcome (ZiweiService.generateLuckPeriods_locals Fixture.iztro
               Fixture.birth "male" Fixture.chart (Fixture.worldIn 2000))
    = Ok (r, active)
    /\ major r = Fixture.decades
    /\ (forall p, FirstInRange 10 Fixture.decades p -> active = Some p)
    /\ ((forall p, In p Fixture.decades -> ~ InRange 10 p) ->
        active = head Fixture.decades).
Proof.
  exact (C1_active_major_period Fixture.iztro Fixture.birth "male"
           Fixture.chart (Fixture.worldIn 2000) Fixture.decades
           eq_refl (fun _ _ => eq_refl) (fun _ => eq_refl)
           (fun _ _ => eq_refl) (fun _ => eq_refl) (fun _ => eq_refl)).
Defined.

(** Ages on the bounds of a period: age 10 is the end of the first period
    (excluded) and the start of the second (included). *)
Example active_major_at_bound :
  outcome (ZiweiService.generateLuckPeriods_locals Fixture.iztro Fixture.birth
             "male" Fixture.chart (Fixture.worldIn 2000))
  = Ok (mkLuckPeriods Fixture.decades
          (Fixture.marker "minor" Fixture.birth 2000)
          (Fixture.marker "annual" Fixture.birth 2000)
          (Fixture.marker "monthly" Fixture.birth 2000)
          (Fixture.marker "daily" Fixture.birth 2000)
          (Fixture.marker "hourly" Fixture.birth 2000),
        Some (mkLuckPeriod 10 20 "兄弟宫" "10-20")).
Proof. reflexivity. Qed.

(** An age past the last period, and an age before birth: the first period. *)
Example active_major_fallback :
  (exists r,
     outcome (ZiweiService.generateLuckPeriods_locals Fixture.iztro
                Fixture.birth "male" Fixture.chart (Fixture.worldIn 2050))
     = Ok (r, Some (mkLuckPeriod 0 10 "命宫" "0-10")))
  /\ (exists r,
       outcome (ZiweiService.generateLuckPeriods_locals Fixture.iztro
                  Fixture.birth "male" Fixture.chart (Fixture.worldIn 1980))
       = Ok (r, Some (mkLuckPeriod 0 10 "命宫" "0-10"))).
Proof. split; eexists; reflexivity. Qed.

(* ===================================================================== *)
(** ** The assembled chart *)
(* ===================================================================== *)

Lemma tryCatch_inv_Ok {A} (body : M A) (message : string -> string)
    (pre : string -> M unit) w w1 a :
  tryCatch body (fun e => bind (pre e) (fun _ => throw (message e))) w
  = (w1, Ok a) ->
  body w = (w1, Ok a).
Proof.
  unfold tryCatch. destruct (body w) as [w' [a' | e]]; [auto |].
  unfold bind, throw. destruct (pre e w') as [w'' [[] | e']]; discriminate.
Qed.

(** What a successful run of the [try] block went through: the raw chart that
    the chart-primitive service returned, and the palaces of the result built
    from it. *)
Lemma body_palaces js cal iz tyme dto w w1 r :
  ZiweiService.calculateZiweiChart_body js cal iz tyme dto w = (w1, Ok r) ->
  exists input zd,
    IztroService.calculateZiweiChart iz input = Ok zd
    /\ palaces r =
       map (fun palace =>
              {| rp_name := name palace;
                 rp_position := position palace;
                 rp_stars := stars palace;
                 isVoid := (length (stars palace) =? 0)%nat;
                 direction := ZiweiService.getPalaceDirection (position palace);
                 significance :=
                   ZiweiService.getPalaceSignificance (name palace) |})
           (zd_palaces zd).
Proof.
  unfold ZiweiService.calculateZiweiChart_body. intros H.
  apply bind_inv_Ok in H as (w2 & [] & _ & H).
  apply bind_inv_Ok in H as (w3 & lunarDate & _ & H).
  apply bind_inv_Ok in H as (w4 & fp & _ & H).
  apply bind_inv_Ok in H as (w5 & zo & _ & H).
  apply bind_inv_Ok in H as (w6 & co & _ & H).
  apply bind_inv_Ok in H as (w7 & zd & Hzd & H).
  apply bind_inv_Ok in H as (w8 & lp & _ & H).
  apply bind_inv_Ok in H as (w9 & now & _ & H).
  apply bind_inv_Ok in H as (w10 & [] & _ & H).
  unfold ret in H. inversion H; subst; clear H.
  apply call_inv_Ok in Hzd as [Hzd _].
  eexists _, zd. split; [exact Hzd | reflexivity].
Qed.

(** C6: in the result that [calculateZiweiChart] assembles, each palace has
    isVoid = true exactly when its star list is empty, and the palaces of the
    result are the palaces of the raw chart, one for one, with their names and
    star lists (so the flag is right for every palace of any chart). *)
Theorem C6_void_iff_no_stars js cal iz tyme dto w r :
  outcome (ZiweiService.calculateZiweiChart js cal iz tyme dto w) = Ok r ->
  Forall (fun p => isVoid p = true <-> rp_stars p = []) (palaces r)
  /\ exists input zd,
       IztroService.calculateZiweiChart iz input = Ok zd
       /\ map rp_name (palaces r) = map name (zd_palaces zd)
       /\ map rp_stars (palaces r) = map stars (zd_palaces zd).
Proof.
  unfold outcome. intros H.
  destruct (ZiweiService.calculateZiweiChart js cal iz tyme dto w)
    as [w1 res] eqn:E.
  simpl in H. subst res. unfold ZiweiService.calculateZiweiChart in E.
  apply tryCatch_inv_Ok in E.
  apply body_palaces in E as (input & zd & Hzd & ->).
  split.
  - apply Forall_forall. intros p Hp.
    apply list_elem_of_In, in_map_iff in Hp as (raw & <- & _). cbn.
    rewrite Nat.eqb_eq. now destruct (stars raw).
  - exists input, zd. split; [exact Hzd |].
    rewrite !map_map. split; reflexivity.
Qed.

Lemma C6_void_iff_no_stars_witness :
  exists r,
    outcome (ZiweiService.calculateZiweiChart Fixture.js Fixture.calendar
               Fixture.iztro Fixture.tyme4ts Fixture.dto (Fixture.worldIn 2026))
    = Ok r
    /\ Forall (fun p => isVoid p = true <-> rp_stars p = []) (palaces r)
    /\ map isVoid (palaces r) = [false; true; false].
Proof.
  destruct (outcome (ZiweiService.calculateZiweiChart Fixture.js
                       Fixture.calendar Fixture.iztro Fixture.tyme4ts
                       Fixture.dto (Fixture.worldIn 2026))) as [r | e] eqn:E.
  - exists r. split; [reflexivity |]. split.
    + exact (proj1 (C6_void_iff_no_stars _ _ _ _ _ _ _ E)).
    + vm_compute in E. inversion E. reflexivity.
  - vm_compute in E. discriminate E.
Defined.

(* ===================================================================== *)
(** ** Star classification *)
(* ===================================================================== *)

Lemma append_at_lookup {V} (m : gmap string (list V)) (k n : string) (v : V) :
  default [] (append_at m k v !! n)
  = default [] (m !! n) ++ (if String.eqb k n then [v] else []).
Proof.
  unfold append_at. rewrite lookup_insert.
  destruct (String.eqb_spec k n) as [-> | Hne].
  - now rewrite decide_True.
  - rewrite decide_False by exact Hne. now rewrite app_nil_r.
Qed.

Lemma append_at_noEmptyEntry {V} (m : gmap string (list V)) (k : string)
    (v : V) :
  noEmptyEntry m -> noEmptyEntry (append_at m k v).
Proof.
  intros Hm n. unfold append_at. rewrite lookup_insert.
  case_decide; [| apply Hm].
  intros Heq. inversion Heq as [H1]. now apply app_eq_nil in H1 as [_ ?].
Qed.

Lemma noEmptyEntry_empty {V} : noEmptyEntry (∅ : gmap string (list V)).
Proof. intros n. now rewrite lookup_empty. Qed.

Lemma noEmptyEntry_entry {V} (m : gmap string (list V)) (n : string) :
  noEmptyEntry m -> m !! n = entry (default [] (m !! n)).
Proof.
  intros Hm. specialize (Hm n). destruct (m !! n) as [[| x l] |]; simpl;
    [contradiction | reflexivity | reflexivity].
Qed.

Lemma app3_nil {A} (x : list A * list A * list A) : app3 x ([], [], []) = x.
Proof. destruct x as [[a b] c]. unfold app3. simpl. now rewrite !app_nil_r. Qed.

Lemma app3_assoc {A} (x y z : list A * list A * list A) :
  app3 (app3 x y) z = app3 x (app3 y z).
Proof. unfold app3. simpl. now rewrite !app_assoc. Qed.

Lemma sort3_app iz (l1 l2 : list string) :
  sort3 iz (l1 ++ l2) = app3 (sort3 iz l1) (sort3 iz l2).
Proof. unfold sort3, app3. simpl. now rewrite !List.filter_app. Qed.

Section Classifier.

Variable iz : IztroService.t.

Lemma organize_star_view (pn n : string) (b : ZiweiService.Buckets)
    (s : string) :
  view (ZiweiService.organize_star iz pn b s) n
  = app3 (view b n)
      (if String.eqb pn n then sort3 iz [s] else ([], [], [])).
Proof.
  destruct b as [[m l] e].
  unfold ZiweiService.organize_star, view, sort3, app3, toMain, toLucky,
    toEvil.
  destruct (IztroService.isMainStar iz s) eqn:Em;
    [| destruct (IztroService.isLuckyStar iz s) eqn:El;
       [| destruct (IztroService.isEvilStar iz s) eqn:Ee]];
    cbn; rewrite ?append_at_lookup;
    destruct (String.eqb pn n); cbn; rewrite ?Em, ?El, ?Ee; cbn;
    now rewrite ?app_nil_r.
Qed.

Lemma organize_star_good (pn : string) (b : ZiweiService.Buckets)
    (s : string) :
  goodBuckets b -> goodBuckets (ZiweiService.organize_star iz pn b s).
Proof.
  destruct b as [[m l] e]. intros (Hm & Hl & He).
  unfold ZiweiService.organize_star, goodBuckets.
  destruct (IztroService.isMainStar iz s);
    [| destruct (IztroService.isLuckyStar iz s);
       [| destruct (IztroService.isEvilStar iz s)]];
    cbn; repeat split; auto using append_at_noEmptyEntry.
Qed.

Lemma organize_palace_view (n : string) (p : Palace)
    (b : ZiweiService.Buckets) :
  view (ZiweiService.organize_palace iz b p) n
  = app3 (view b n)
      (if String.eqb (name p) n then sort3 iz (stars p) else ([], [], [])).
Proof.
  unfold ZiweiService.organize_palace.
  generalize (stars p) as l. intros l. revert b.
  induction l as [| s l IH]; intros b; simpl.
  - destruct (String.eqb (name p) n);
      [change (sort3 iz []) with (@nil string, @nil string, @nil string) |];
      now rewrite app3_nil.
  - rewrite IH, organize_star_view, app3_assoc. f_equal.
    destruct (String.eqb (name p) n).
    + now rewrite <- sort3_app.
    + reflexivity.
Qed.

Lemma organize_palace_good (p : Palace) (b : ZiweiService.Buckets) :
  goodBuckets b -> goodBuckets (ZiweiService.organize_palace iz b p).
Proof.
  unfold ZiweiService.organize_palace.
  generalize (stars p) as l. intros l. revert b.
  induction l as [| s l IH]; intros b Hb; simpl; [exact Hb |].
  apply IH. now apply organize_star_good.
Qed.

Lemma organize_all_view (n : string) (ps : list Palace)
    (b : ZiweiService.Buckets) :
  view (fold_left (ZiweiService.organize_palace iz) ps b) n
  = app3 (view b n) (sort3 iz (starsAt n ps)).
Proof.
  revert b. induction ps as [| p ps IH]; intros b; cbn [fold_left].
  - change (sort3 iz (starsAt n []))
      with (@nil string, @nil string, @nil string).
    now rewrite app3_nil.
  - rewrite IH, organize_palace_view, app3_assoc. f_equal.
    change (starsAt n (p :: ps))
      with ((if String.eqb (name p) n then stars p else [])
            ++ starsAt n ps).
    rewrite sort3_app.
    destruct (String.eqb (name p) n); reflexivity.
Qed.

Lemma organize_all_good (ps : list Palace) (b : ZiweiService.Buckets) :
  goodBuckets b ->
  goodBuckets (fold_left (ZiweiService.organize_palace iz) ps b).
Proof.
  revert b. induction ps as [| p ps IH]; intros b Hb; simpl; [exact Hb |].
  apply IH. now apply organize_palace_good.
Qed.

(** Each occurrence of a star is kept by exactly one of the three tests
    when the star is in a table, and by none otherwise. *)
Lemma sort3_count (s : string) (l : list string) :
  (count_occ string_dec (List.filter (toMain iz) l) s
   + count_occ string_dec (List.filter (toLucky iz) l) s
   + count_occ string_dec (List.filter (toEvil iz) l) s)%nat
  = if inSomeTable iz s then count_occ string_dec l s else 0%nat.
Proof.
  induction l as [| x l IH]; simpl.
  - now destruct (inSomeTable iz s).
  - unfold toMain, toLucky, toEvil, inSomeTable in *.
    destruct (string_dec x s) as [-> | Hne].
    + destruct (IztroService.isMainStar iz s),
        (IztroService.isLuckyStar iz s), (IztroService.isEvilStar iz s);
        simpl in *; rewrite ?decide_True_pi; 
        try destruct (string_dec s s); try congruence; lia.
    + destruct (IztroService.isMainStar iz x),
        (IztroService.isLuckyStar iz x), (IztroService.isEvilStar iz x);
        simpl; try destruct (string_dec x s); try congruence; exact IH.
Qed.

End Classifier.

(** C3: under every palace name, [organizeStarInfo] files each occurrence of a
    star of the palaces of that name in at most one of the three dictionaries:
    the main one when the star is a main star, else the lucky one when it is a
    lucky star, else the evil one when it is an evil star; a star of no table
    is in none of them; each list keeps the order in which the stars appear;
    and a name has no key in a dictionary exactly when it has no star of that
    category. The count says that no occurrence is filed twice. *)
Theorem C3_star_classification
    (iz : IztroService.t) (palaces : list Palace) (n : string) :
  let info := ZiweiService.organizeStarInfo iz palaces in
  let here := starsAt n palaces in
  mainStars info !! n = entry (List.filter (toMain iz) here)
  /\ luckyStars info !! n = entry (List.filter (toLucky iz) here)
  /\ evilStars info !! n = entry (List.filter (toEvil iz) here)
  /\ forall s,
       (count_occ string_dec (default [] (mainStars info !! n)) s
        + count_occ string_dec (default [] (luckyStars info !! n)) s
        + count_occ string_dec (default [] (evilStars info !! n)) s)%nat
       = if inSomeTable iz s then count_occ string_dec here s else 0%nat.
Proof.
  intros info here. subst info. unfold ZiweiService.organizeStarInfo.
  pose proof (organize_all_view iz n palaces (∅, ∅, ∅)) as Hview.
  pose proof (organize_all_good iz palaces (∅, ∅, ∅)) as Hgood.
  destruct (fold_left (ZiweiService.organize_palace iz) palaces (∅, ∅, ∅))
    as [[m l] e].
  unfold view, sort3, app3 in Hview. cbn in Hview.
  rewrite !lookup_empty in Hview. cbn in Hview.
  inversion Hview as [[Hm Hl He]].
  destruct Hgood as (Gm & Gl & Ge).
  { repeat split; apply noEmptyEntry_empty. }
  cbn in Gm, Gl, Ge. cbn [mainStars luckyStars evilStars].
  rewrite (noEmptyEntry_entry m n Gm), (noEmptyEntry_entry l n Gl),
    (noEmptyEntry_entry e n Ge).
  rewrite Hm, Hl, He. fold here.
  repeat split.
  intros s.
  assert (Hd : forall x : list string, default [] (entry x) = x)
    by (now intros [| ? ?]).
  rewrite !Hd. apply sort3_count.
Qed.

(** On the fixture's chart: 太阳 is in the main and in the lucky table and is
    filed as a main star only; 天马 is in no table and is dropped; the palace
    without stars has no key. *)
Example organizeStarInfo_fixture :
  let info := ZiweiService.organizeStarInfo Fixture.iztro Fixture.chart in
  map_to_list (mainStars info)
    ≡ₚ [("命宫", ["紫微"; "天府"]); ("夫妻宫", ["太阳"])]
  /\ map_to_list (luckyStars info) = [("夫妻宫", ["文昌"])]
  /\ map_to_list (evilStars info) = [("夫妻宫", ["擎羊"])].
Proof.
  cbn zeta. repeat split; vm_compute; try reflexivity.
Qed.

(* ===================================================================== *)
(** ** The four transformations *)
(* ===================================================================== *)

Lemma landings_app (n : string) (palaces : list Palace)
    (ts1 ts2 : list Transformation) :
  landings n palaces (ts1 ++ ts2)
  = landings n palaces ts1 ++ landings n palaces ts2.
Proof. unfold landings. apply flat_map_app. Qed.

Lemma In_landings (n : string) (palaces : list Palace)
    (ts : list Transformation) (t : Transformation) :
  In t (landings n palaces ts) ->
  In t ts /\ exists p, In p palaces /\ includes (stars p) (star t) = true
                       /\ name p = n.
Proof.
  unfold landings. rewrite in_flat_map. intros (t' & Ht' & Hin).
  apply in_flat_map in Hin as (p & Hp & Hin).
  destruct (includes (stars p) (star t') && String.eqb (name p) n) eqn:E;
    [| contradiction].
  destruct Hin as [<- | []].
  apply andb_true_iff in E as [Hinc Hname].
  apply String.eqb_eq in Hname. eauto.
Qed.

Section PalaceLocations.

Variable palaces : list Palace.

Lemma place_lookup (t : Transformation) (n : string) (ps : list Palace)
    (acc : gmap string (list Transformation)) :
  default [] (IztroModel.place ps acc t !! n)
  = default [] (acc !! n)
    ++ flat_map
         (fun p =>
            if includes (stars p) (star t) && String.eqb (name p) n
            then [t] else [])
         ps.
Proof.
  unfold IztroModel.place.
  revert acc. induction ps as [| p ps IH]; intros acc; cbn [fold_left flat_map].
  - now rewrite app_nil_r.
  - rewrite IH. destruct (includes (stars p) (star t)); cbn [andb].
    + rewrite append_at_lookup, <- app_assoc. reflexivity.
    + reflexivity.
Qed.

Lemma place_noEmptyEntry (t : Transformation) (ps : list Palace)
    (acc : gmap string (list Transformation)) :
  noEmptyEntry acc -> noEmptyEntry (IztroModel.place ps acc t).
Proof.
  unfold IztroModel.place.
  revert acc. induction ps as [| p ps IH]; intros acc Hacc; cbn [fold_left].
  - exact Hacc.
  - apply IH. destruct (includes (stars p) (star t)); [| exact Hacc].
    now apply append_at_noEmptyEntry.
Qed.

Lemma find_lookup (n : string) (ts : list Transformation)
    (acc : gmap string (list Transformation)) :
  default [] (fold_left (IztroModel.place palaces) ts acc !! n)
  = default [] (acc !! n) ++ landings n palaces ts.
Proof.
  revert acc. induction ts as [| t ts IH]; intros acc; cbn [fold_left].
  - unfold landings. cbn. now rewrite app_nil_r.
  - rewrite IH, place_lookup, <- app_assoc. reflexivity.
Qed.

Lemma find_noEmptyEntry (ts : list Transformation)
    (acc : gmap string (list Transformation)) :
  noEmptyEntry acc ->
  noEmptyEntry (fold_left (IztroModel.place palaces) ts acc).
Proof.
  revert acc. induction ts as [| t ts IH]; intros acc Hacc; cbn [fold_left].
  - exact Hacc.
  - apply IH. now apply place_noEmptyEntry.
Qed.

(** The modelled palace-location map, key by key. *)
Lemma findTransformationPalaces_lookup (n : string)
    (ts : list Transformation) :
  IztroModel.findTransformationPalaces ts palaces !! n
  = entry (landings n palaces ts).
Proof.
  unfold IztroModel.findTransformationPalaces.
  rewrite noEmptyEntry_entry
    by (apply find_noEmptyEntry, noEmptyEntry_empty).
  now rewrite find_lookup, lookup_empty.
Qed.

End PalaceLocations.

(** C4: [calculateTransformations] reports the transformation lists of the
    year stem and of the day stem in the per-stem fields whatever the chart
    holds, and asks for the palace-location map of the concatenation of the
    two lists; with the palace-location step of the specification, that map
    holds under each palace name the year stem's landings followed by the day
    stem's, and a transformation whose star is in no palace is in no list of
    the map while it stays in its stem's list. *)
Theorem C4_transformations
    (iz : IztroService.t) (fp : FourPillars) (palaces : list Palace) :
  IztroService.findTransformationPalaces iz
  = IztroModel.findTransformationPalaces ->
  let info := ZiweiService.calculateTransformations iz fp palaces in
  let yearTs := IztroService.getTransformationsByStem iz (stem (year fp)) in
  let dayTs := IztroService.getTransformationsByStem iz (stem (day fp)) in
  yearStem info = {| st_stem := stem (year fp); transformations := yearTs |}
  /\ dayStem info = {| st_stem := stem (day fp); transformations := dayTs |}
  /\ tpalaces info
     = IztroService.findTransformationPalaces iz (yearTs ++ dayTs) palaces
  /\ (forall n,
        tpalaces info !! n
        = entry (landings n palaces yearTs ++ landings n palaces dayTs))
  /\ (forall t,
        In t (yearTs ++ dayTs) ->
        (forall p, In p palaces -> includes (stars p) (star t) = false) ->
        (forall n l, tpalaces info !! n = Some l -> ~ In t l)
        /\ (In t yearTs -> In t (transformations (yearStem info)))
        /\ (In t dayTs -> In t (transformations (dayStem info)))).
Proof.
  intros Hfind info yearTs dayTs. subst info.
  unfold ZiweiService.calculateTransformations.
  cbn [yearStem dayStem tpalaces transformations]. fold yearTs dayTs.
  split; [reflexivity |]. split; [reflexivity |]. split; [reflexivity |].
  rewrite Hfind.
  assert (Hlookup : forall n,
    IztroModel.findTransformationPalaces (yearTs ++ dayTs) palaces !! n
    = entry (landings n palaces yearTs ++ landings n palaces dayTs)).
  { intros n. now rewrite findTransformationPalaces_lookup, landings_app. }
  split; [exact Hlookup |].
  intros t Ht Habsent. split; [| split; auto].
  intros n l Hl Hin. rewrite Hlookup in Hl.
  assert (l = landings n palaces yearTs ++ landings n palaces dayTs) as ->.
  { destruct (landings n palaces yearTs ++ landings n palaces dayTs);
      simpl in Hl; congruence. }
  rewrite <- landings_app in Hin.
  apply In_landings in Hin as (_ & p & Hp & Hinc & _).
  rewrite (Habsent p Hp) in Hinc. discriminate.
Qed.

Lemma C4_transformations_witness :
  let info :=
    ZiweiService.calculateTransformations Fixture.iztro Fixture.pillars
      Fixture.chart in
  (forall n,
     tpalaces info !! n
     = entry (landings n Fixture.chart (Fixture.stemTable "甲")
              ++ landings n Fixture.chart (Fixture.stemTable "庚")))
  /\ tpalaces info !! "夫妻宫"
     = Some [mkTransformation "太阳" "huaji"; mkTransformation "太阳" "huaxing"]
  /\ transformations (yearStem info) = Fixture.stemTable "甲".
Proof.
  pose proof (C4_transformations Fixture.iztro Fixture.pillars Fixture.chart
                eq_refl) as H.
  cbv zeta in H. destruct H as (Hy & _ & _ & Hmap & _).
  cbv zeta. split; [exact Hmap |]. split.
  - rewrite Hmap. reflexivity.
  - rewrite Hy. reflexivity.
Defined.

(* ===================================================================== *)
(** ** Palace geometry *)
(* ===================================================================== *)

Lemma index_from_None (i : Z) (n : string) (l : list string) :
  ~ In n l -> IztroModel.index_from i n l = None.
Proof.
  revert i. induction l as [| x l IH]; intros i Hn; simpl; [reflexivity |].
  destruct (String.eqb_spec x n) as [-> | Hne].
  - exfalso. apply Hn. now left.
  - apply IH. intros Hin. apply Hn. now right.
Qed.

(** C2: with the palace geometry of the specification behind the service, for
    each of the twelve positions p [getTripleSquarePalaces], given the
    canonical name at p, returns exactly two triplicate palaces, those at
    positions ((p-1+4) mod 12)+1 and ((p-1-4+12) mod 12)+1, and exactly one
    square palace, that at ((p-1+6) mod 12)+1; the answer takes no chart and
    does not depend on the state it is asked in; a name that is not canonical
    fails with an error. *)
Theorem C2_triple_square_palaces
    (iz : IztroService.t) (w : World) (p : Z) (unknown : string) :
  IztroService.getTripleSquarePalaces iz = IztroModel.getTripleSquarePalaces ->
  (1 <= p <= 12)%Z ->
  (exists n a b c,
     IztroModel.palaceAt p = Some n
     /\ IztroModel.palaceAt ((p - 1 + 4) mod 12 + 1) = Some a
     /\ IztroModel.palaceAt ((p - 1 - 4 + 12) mod 12 + 1) = Some b
     /\ IztroModel.palaceAt ((p - 1 + 6) mod 12 + 1) = Some c
     /\ outcome (ZiweiService.getTripleSquarePalaces iz n w)
        = Ok {| originalPalace := n;
                triplePalaces := [a; b];
                squarePalaces := [c];
                allRelatedPalaces := [n; a; b; c] |})
  /\ (~ In unknown IztroModel.canonicalPalaces ->
      outcome (ZiweiService.getTripleSquarePalaces iz unknown w)
      = Throw "InvalidPalaceError").
Proof.
  intros Hiz Hp. unfold ZiweiService.getTripleSquarePalaces, outcome, call.
  cbn [snd]. rewrite Hiz. split.
  - pose proof (valid_position_cases p Hp) as Hin. simpl in Hin.
    repeat (destruct Hin as [<- | Hin];
            [ do 4 eexists; repeat split; reflexivity | ]).
    contradiction.
  - intros Hunknown. unfold IztroModel.getTripleSquarePalaces,
      IztroModel.positionOf.
    now rewrite index_from_None.
Qed.

Lemma C2_triple_square_palaces_witness :
  (exists n a b c,
     IztroModel.palaceAt 1 = Some n
     /\ IztroModel.palaceAt ((1 - 1 + 4) mod 12 + 1) = Some a
     /\ IztroModel.palaceAt ((1 - 1 - 4 + 12) mod 12 + 1) = Some b
     /\ IztroModel.palaceAt ((1 - 1 + 6) mod 12 + 1) = Some c
     /\ outcome (ZiweiService.getTripleSquarePalaces Fixture.iztro n
                   (Fixture.worldIn 2026))
        = Ok {| originalPalace := n;
                triplePalaces := [a; b];
                squarePalaces := [c];
                allRelatedPalaces := [n; a; b; c] |})
  /\ (~ In "紫微宫" IztroModel.canonicalPalaces ->
      outcome (ZiweiService.getTripleSquarePalaces Fixture.iztro "紫微宫"
                 (Fixture.worldIn 2026))
      = Throw "InvalidPalaceError").
Proof.
  apply (C2_triple_square_palaces Fixture.iztro (Fixture.worldIn 2026) 1
           "紫微宫" eq_refl).
  lia.
Defined.

Example triple_square_of_life_palace :
  outcome (ZiweiService.getTripleSquarePalaces Fixture.iztro "命宫"
             (Fixture.worldIn 2026))
  = Ok {| originalPalace := "命宫";
          triplePalaces := ["财帛宫"; "官禄宫"];
          squarePalaces := ["迁移宫"];
          allRelatedPalaces := ["命宫"; "财帛宫"; "官禄宫"; "迁移宫"] |}.
Proof. reflexivity. Qed.

(* ===================================================================== *)
(** ** Failures of collaborators *)
(* ===================================================================== *)

Lemma calls_app (evs1 evs2 : list Event) :
  calls (evs1 ++ evs2) = calls evs1 ++ calls evs2.
Proof. unfold calls. apply flat_map_app. Qed.

Lemma protocol_ret {A} (a : A) : Protocol [] (ret a).
Proof.
  intros w. exists []. cbn. rewrite app_nil_r. repeat split; constructor.
Qed.

Lemma protocol_log (msg : string) : Protocol [] (emit (EvLog msg)).
Proof.
  intros w. exists [EvLog msg]. cbn. repeat split.
  - constructor.
  - repeat constructor.
Qed.

Lemma protocol_newDate : Protocol [] newDate.
Proof.
  intros w. exists []. cbn. rewrite app_nil_r. repeat split; constructor.
Qed.

Lemma protocol_call {A} (method : string) (r : result A) :
  Protocol [method] (call method r).
Proof.
  intros w. exists [EvCall method (thrownBy r)]. cbn. repeat split.
  - reflexivity.
  - destruct r as [a | e]; cbn.
    + repeat constructor.
    + exists [], method. split; [reflexivity | constructor].
Qed.

Lemma protocol_bind {A B} (ms1 ms2 : list string) (m : M A) (k : A -> M B) :
  Protocol ms1 m -> (forall a, Protocol ms2 (k a)) ->
  Protocol (ms1 ++ ms2) (bind m k).
Proof.
  intros Hm Hk w. destruct (Hm w) as (evs1 & Ht1 & Hs1 & Hr1).
  unfold bind. destruct (m w) as [w1 [a | e]]; cbn [fst snd] in *.
  - destruct (Hk a w1) as (evs2 & Ht2 & Hs2 & Hr2).
    exists (evs1 ++ evs2). split; [| split].
    + now rewrite Ht2, Ht1, app_assoc.
    + rewrite calls_app. now apply sublist_app.
    + destruct (snd (k a w1)) as [b | e].
      * now apply Forall_app.
      * destruct Hr2 as (before & method & -> & Hbefore).
        exists (evs1 ++ before), method. split; [now rewrite app_assoc |].
        now apply Forall_app.
  - exists evs1. split; [exact Ht1 |]. split; [| exact Hr1].
    now apply sublist_inserts_r.
Qed.

Lemma protocol_weaken {A} (ms1 ms2 : list string) (m : M A) :
  ms1 `sublist_of` ms2 -> Protocol ms1 m -> Protocol ms2 m.
Proof.
  intros Hsub Hm w. destruct (Hm w) as (evs & Ht & Hs & Hr).
  exists evs. split; [exact Ht |]. split; [| exact Hr].
  now transitivity ms1.
Qed.

Lemma protocol_bind_eq {A B} (ms ms1 ms2 : list string) (m : M A)
    (k : A -> M B) :
  ms = ms1 ++ ms2 -> Protocol ms1 m -> (forall a, Protocol ms2 (k a)) ->
  Protocol ms (bind m k).
Proof. intros ->. apply protocol_bind. Qed.

(** One statement of a method: it consumes the methods [ms1] of the protocol,
    the rest of the method keeps to what is left. *)
Ltac protocol_step ms1 lem :=
  eapply (protocol_bind_eq _ ms1); [reflexivity | apply lem | intro].

Lemma protocol_convertToLunarDate js cal dateStr dateType :
  Protocol ["Solar.fromYmd.getLunar"; "Lunar.fromYmd"]
    (ZiweiService.convertToLunarDate js cal dateStr dateType).
Proof.
  unfold ZiweiService.convertToLunarDate.
  destruct (String.eqb dateType "solar").
  - eapply protocol_weaken; [| apply protocol_call].
    apply (sublist_inserts_r [_] [_] [_]). reflexivity.
  - eapply protocol_weaken; [| apply protocol_call].
    apply (sublist_inserts_l [_] [_] [_]). reflexivity.
Qed.

Lemma protocol_generateLuckPeriods iz lunarDate gender palaces :
  Protocol
    [ "iztro.calculateMajorPeriods"; "iztro.calculateMinorPeriod";
      "iztro.calculateAnnualPeriod"; "iztro.calculateMonthlyPeriod";
      "iztro.calculateDailyPeriod"; "iztro.calculateHourlyPeriod" ]
    (ZiweiService.generateLuckPeriods iz lunarDate gender palaces).
Proof.
  unfold ZiweiService.generateLuckPeriods,
    ZiweiService.generateLuckPeriods_locals.
  eapply (protocol_bind_eq _ _ []);
    [symmetry; apply app_nil_r | | intro; apply protocol_ret].
  protocol_step (@nil string) protocol_newDate.
  protocol_step ["iztro.calculateMajorPeriods"] @protocol_call.
  protocol_step ["iztro.calculateMinorPeriod"] @protocol_call.
  protocol_step ["iztro.calculateAnnualPeriod"] @protocol_call.
  protocol_step (@nil string) protocol_newDate.
  protocol_step ["iztro.calculateMonthlyPeriod"] @protocol_call.
  protocol_step (@nil string) protocol_newDate.
  protocol_step ["iztro.calculateDailyPeriod"] @protocol_call.
  protocol_step (@nil string) protocol_newDate.
  protocol_step ["iztro.calculateHourlyPeriod"] @protocol_call.
  apply protocol_ret.
Qed.

Lemma protocol_body js cal iz tyme dto :
  Protocol chartMethods
    (ZiweiService.calculateZiweiChart_body js cal iz tyme dto).
Proof.
  unfold ZiweiService.calculateZiweiChart_body, chartMethods.
  protocol_step (@nil string) protocol_log.
  protocol_step ["Solar.fromYmd.getLunar"; "Lunar.fromYmd"]
    protocol_convertToLunarDate.
  unfold ZiweiService.calculateFourPillars.
  protocol_step ["tyme4ts.calculateFourPillars"] @protocol_call.
  protocol_step ["tyme4ts.getChineseZodiac"] @protocol_call.
  protocol_step ["tyme4ts.getConstellation"] @protocol_call.
  protocol_step ["iztro.calculateZiweiChart"] @protocol_call.
  eapply (protocol_bind_eq _ _ []);
    [symmetry; apply app_nil_r | apply protocol_generateLuckPeriods | intro].
  protocol_step (@nil string) protocol_newDate.
  protocol_step (@nil string) protocol_log.
  apply protocol_ret.
Qed.

Lemma chartMethods_NoDup : NoDup chartMethods.
Proof. apply (bool_decide_unpack _). vm_compute. reflexivity. Qed.

(** C7, as the claim states it, fails: the message of the error does not tell
    the stage. A calendar conversion and a chart computation that fail with
    the same message leave [calculateZiweiChart] with the same error. *)
Lemma C7_stage_counterexample :
  ~ (forall js cal iz tyme cal' iz' dto w message,
       outcome (ZiweiService.calculateZiweiChart js cal iz tyme dto w)
       = Throw message ->
       outcome (ZiweiService.calculateZiweiChart js cal' iz' tyme dto w)
       = Throw message ->
       failedCalls
         (events (ZiweiService.calculateZiweiChart js cal iz tyme dto w))
       = failedCalls
           (events (ZiweiService.calculateZiweiChart js cal' iz' tyme dto w))).
Proof.
  intros H.
  specialize (H Fixture.js (Fixture.failingCalendar "boom") Fixture.iztro
                Fixture.tyme4ts Fixture.calendar
                (Fixture.iztroFailingChart "boom") Fixture.dto
                (Fixture.worldIn 2026) "星盘计算失败: boom" eq_refl eq_refl).
  vm_compute in H. discriminate H.
Qed.

(** C7, amended: [calculateZiweiChart] makes each calendar, pillar, chart and
    period computation at most once (nothing is retried); when it returns,
    every such call returned (no failure is swallowed); when one of them
    throws a message e, that call is the last one made, the failure is
    logged, and the method throws an error whose message is the fixed prefix
    "星盘计算失败: " followed by e. The prefix is the same for every stage: the
    stage shows only in the collaborator's own message. *)
Theorem C7_collaborator_failure js cal iz tyme dto w :
  exists evs,
    events (ZiweiService.calculateZiweiChart js cal iz tyme dto w)
    = trace w ++ evs
    /\ NoDup (calls evs)
    /\ match outcome (ZiweiService.calculateZiweiChart js cal iz tyme dto w)
       with
       | Ok _ => Forall returned evs
       | Throw message =>
           exists before method e,
             evs = before
                   ++ [EvCall method (Some e); EvError "紫微斗数星盘计算失败"]
             /\ Forall returned before
             /\ message = "星盘计算失败: " +:+ e
             /\ outcome
                  (ZiweiService.calculateZiweiChart_body js cal iz tyme dto w)
                = Throw e
       end.
Proof.
  destruct (protocol_body js cal iz tyme dto w) as (evs & Ht & Hs & Hr).
  unfold ZiweiService.calculateZiweiChart, tryCatch, outcome, events.
  destruct (ZiweiService.calculateZiweiChart_body js cal iz tyme dto w)
    as [w1 [r | e]]; cbn [fst snd] in *.
  - exists evs. split; [exact Ht |]. split; [| exact Hr].
    eapply sublist_NoDup; [apply chartMethods_NoDup | exact Hs].
  - destruct Hr as (before & method & -> & Hbefore).
    exists ((before ++ [EvCall method (Some e)])
            ++ [EvError "紫微斗数星盘计算失败"]).
    cbn. split; [rewrite Ht; now rewrite <- !app_assoc |]. split.
    + rewrite calls_app. cbn. rewrite app_nil_r.
      eapply sublist_NoDup; [apply chartMethods_NoDup | exact Hs].
    + exists before, method, e. rewrite <- app_assoc. auto.
Qed.

(** The two failures of the counterexample, as the caller sees them. *)
Example calendar_failure :
  outcome (ZiweiService.calculateZiweiChart Fixture.js
             (Fixture.failingCalendar "boom") Fixture.iztro Fixture.tyme4ts
             Fixture.dto (Fixture.worldIn 2026))
  = Throw "星盘计算失败: boom"
  /\ calls (events (ZiweiService.calculateZiweiChart Fixture.js
                      (Fixture.failingCalendar "boom") Fixture.iztro
                      Fixture.tyme4ts Fixture.dto (Fixture.worldIn 2026)))
     = ["Solar.fromYmd.getLunar"].
Proof. split; reflexivity. Qed.

Example chart_primitive_failure :
  outcome (ZiweiService.calculateZiweiChart Fixture.js Fixture.calendar
             (Fixture.iztroFailingChart "boom") Fixture.tyme4ts Fixture.dto
             (Fixture.worldIn 2026))
  = Throw "星盘计算失败: boom"
  /\ calls (events (ZiweiService.calculateZiweiChart Fixture.js
                      Fixture.calendar (Fixture.iztroFailingChart "boom")
                      Fixture.tyme4ts Fixture.dto (Fixture.worldIn 2026)))
     = ["Solar.fromYmd.getLunar"; "tyme4ts.calculateFourPillars";
        "tyme4ts.getChineseZodiac"; "tyme4ts.getConstellation";
        "iztro.calculateZiweiChart"].
Proof. split; reflexivity. Qed.

(* ===================================================================== *)
(** ** Period synthesis and the wall clock *)
(* ===================================================================== *)

Lemma generateLuckPeriods_locals_run iz lunarDate gender palaces w :
  outcome (ZiweiService.generateLuckPeriods_locals iz lunarDate gender palaces
             w)
  = periodsAt iz lunarDate gender palaces
      (clock w (reads w)) (clock w (S (reads w)))
      (clock w (S (S (reads w)))) (clock w (S (S (S (reads w))))).
Proof.
  unfold ZiweiService.generateLuckPeriods_locals, periodsAt, outcome, bind,
    call, newDate, ret, andThen. cbn.
  repeat match goal with
         | |- context [match ?r with Ok _ => _ | Throw _ => _ end] =>
             destruct r; cbn
         end; reflexivity.
Qed.

Lemma firstContaining_find (age : Z) (periods : list LuckPeriod) :
  Spec.firstContaining age periods
  = List.find
      (fun period => (age >=? startAge period)%Z && (age <? endAge period)%Z)
      periods.
Proof.
  induction periods as [| p rest IH]; simpl; [reflexivity |].
  rewrite IH. now rewrite Z.geb_leb.
Qed.

Lemma synthesize_periodsAt iz lunarDate palaces gender asOf :
  Spec.synthesize iz lunarDate palaces gender asOf
  = periodsAt iz lunarDate gender palaces asOf asOf asOf asOf.
Proof.
  unfold Spec.synthesize, periodsAt, Spec.activeMajor, andThen.
  repeat match goal with
         | |- context [match ?r with Ok _ => _ | Throw _ => _ end] =>
             destruct r; cbn
         end; try reflexivity.
  rewrite firstContaining_find.
  match goal with |- context [List.find ?f ?l] => destruct (List.find f l) end;
    [reflexivity |].
  match goal with |- context [head ?l] => now destruct l end.
Qed.

(** C8, as the claim states it, fails: [generateLuckPeriods] has no as-of
    argument, it reads the wall clock when it is called. With the same birth
    date, gender and palaces, a call in 2005 and a call in 2015 return
    different periods. *)
Lemma C8_wall_clock_counterexample :
  ~ (forall iz lunarDate gender palaces (w w' : World),
       outcome (ZiweiService.generateLuckPeriods iz lunarDate gender palaces w)
       = outcome
           (ZiweiService.generateLuckPeriods iz lunarDate gender palaces w')).
Proof.
  intros H.
  specialize (H Fixture.iztro Fixture.birth "male" Fixture.chart
                (Fixture.worldIn 2005) (Fixture.worldIn 2015)).
  vm_compute in H. discriminate H.
Qed.

(** C8, amended: the periods that [generateLuckPeriods] returns, and the
    active major period it selects, are determined by the birth date, the
    gender, the palaces and the four wall-clock readings the call takes, and
    by nothing else of the state: two calls with the same arguments whose
    readings agree give the same result; and when the four readings are one
    moment asOf, the result is the one the synthesizer of the specification
    gives for asOf. *)
Theorem C8_periods_determined_by_clock_readings
    iz lunarDate gender palaces (w w' : World) :
  (forall i, (i < 4)%nat ->
     clock w (reads w + i)%nat = clock w' (reads w' + i)%nat) ->
  outcome (ZiweiService.generateLuckPeriods_locals iz lunarDate gender palaces
             w)
  = outcome (ZiweiService.generateLuckPeriods_locals iz lunarDate gender
               palaces w')
  /\ outcome (ZiweiService.generateLuckPeriods iz lunarDate gender palaces w)
     = outcome (ZiweiService.generateLuckPeriods iz lunarDate gender palaces
                  w')
  /\ forall asOf,
       (forall i, (i < 4)%nat -> clock w (reads w + i)%nat = asOf) ->
       outcome (ZiweiService.generateLuckPeriods_locals iz lunarDate gender
                  palaces w)
       = Spec.synthesize iz lunarDate palaces gender asOf.
Proof.
  intros Hclock.
  assert (Hlocals :
    outcome (ZiweiService.generateLuckPeriods_locals iz lunarDate gender
               palaces w)
    = outcome (ZiweiService.generateLuckPeriods_locals iz lunarDate gender
                 palaces w')).
  { rewrite !generateLuckPeriods_locals_run.
    pose proof (Hclock 0%nat ltac:(lia)) as H0.
    pose proof (Hclock 1%nat ltac:(lia)) as H1.
    pose proof (Hclock 2%nat ltac:(lia)) as H2.
    pose proof (Hclock 3%nat ltac:(lia)) as H3.
    rewrite Nat.add_0_r in H0.
    replace (reads w + 1)%nat with (S (reads w)) in H1 by lia.
    replace (reads w + 2)%nat with (S (S (reads w))) in H2 by lia.
    replace (reads w + 3)%nat with (S (S (S (reads w)))) in H3 by lia.
    rewrite Nat.add_0_r in H0.
    replace (reads w' + 1)%nat with (S (reads w')) in H1 by lia.
    replace (reads w' + 2)%nat with (S (S (reads w'))) in H2 by lia.
    replace (reads w' + 3)%nat with (S (S (S (reads w')))) in H3 by lia.
    now rewrite H0, H1, H2, H3. }
  split; [exact Hlocals |]. split.
  - unfold outcome in *. unfold ZiweiService.generateLuckPeriods, bind, ret.
    destruct (ZiweiService.generateLuckPeriods_locals iz lunarDate gender
                palaces w) as [w1 [r | e]];
      destruct (ZiweiService.generateLuckPeriods_locals iz lunarDate gender
                  palaces w') as [w1' [r' | e']];
      cbn in *; congruence.
  - intros asOf HasOf.
    rewrite generateLuckPeriods_locals_run, synthesize_periodsAt.
    pose proof (HasOf 0%nat ltac:(lia)) as H0.
    pose proof (HasOf 1%nat ltac:(lia)) as H1.
    pose proof (HasOf 2%nat ltac:(lia)) as H2.
    pose proof (HasOf 3%nat ltac:(lia)) as H3.
    rewrite Nat.add_0_r in H0.
    replace (reads w + 1)%nat with (S (reads w)) in H1 by lia.
    replace (reads w + 2)%nat with (S (S (reads w))) in H2 by lia.
    replace (reads w + 3)%nat with (S (S (S (reads w)))) in H3 by lia.
    now rewrite H0, H1, H2, H3.
Qed.

Lemma C8_periods_determined_by_clock_readings_witness :
  outcome (ZiweiService.generateLuckPeriods_locals Fixture.iztro Fixture.birth
             "male" Fixture.chart (Fixture.worldIn 2000))
  = outcome (ZiweiService.generateLuckPeriods_locals Fixture.iztro
               Fixture.birth "male" Fixture.chart (Fixture.laterWorldIn 2000))
  /\ outcome (ZiweiService.generateLuckPeriods Fixture.iztro Fixture.birth
                "male" Fixture.chart (Fixture.worldIn 2000))
     = outcome (ZiweiService.generateLuckPeriods Fixture.iztro Fixture.birth
                  "male" Fixture.chart (Fixture.laterWorldIn 2000))
  /\ forall asOf,
       (forall i, (i < 4)%nat ->
          clock (Fixture.worldIn 2000) (reads (Fixture.worldIn 2000) + i)%nat
          = asOf) ->
       outcome (ZiweiService.generateLuckPeriods_locals Fixture.iztro
                  Fixture.birth "male" Fixture.chart (Fixture.worldIn 2000))
       = Spec.synthesize Fixture.iztro Fixture.birth Fixture.chart "male" asOf.
Proof.
  exact (C8_periods_determined_by_clock_readings Fixture.iztro Fixture.birth
           "male" Fixture.chart (Fixture.worldIn 2000)
           (Fixture.laterWorldIn 2000) (fun i _ => eq_refl)).
Defined.

(** The same call in 2005 and in 2015: another active major period. *)
Example active_major_follows_the_clock :
  (exists r,
     outcome (ZiweiService.generateLuckPeriods_locals Fixture.iztro
                Fixture.birth "male" Fixture.chart (Fixture.worldIn 2005))
     = Ok (r, Some (mkLuckPeriod 10 20 "兄弟宫" "10-20")))
  /\ (exists r,
       outcome (ZiweiService.generateLuckPeriods_locals Fixture.iztro
                  Fixture.birth "male" Fixture.chart (Fixture.worldIn 2015))
       = Ok (r, Some (mkLuckPeriod 20 30 "夫妻宫" "20-30"))).
Proof. split; eexists; reflexivity. Qed.

(* ===================================================================== *)
(** ** Checking a palace for a transformation *)
(* ===================================================================== *)

Lemma includes_In (l : list string) (x : string) :
  includes l x = true <-> In x l.
Proof.
  unfold includes. rewrite existsb_exists. split.
  - intros (y & Hy & Heq). apply String.eqb_eq in Heq. now subst.
  - intros Hx. exists x. split; [exact Hx | apply String.eqb_refl].
Qed.

(** C9: the result of [checkPalaceTransformation] is the same in every state
    of the service, in particular after any chart was computed: it depends on
    the palace name and the transformation type only. Each detail it reports
    is a star of the hard-coded three-palace chart (命宫, 兄弟宫, 夫妻宫), in a
    palace that is among the related palaces of the asked one; so [exists] is
    true only when a related palace is one of those three names. *)
Theorem C9_check_uses_mock_chart
    (iz : IztroService.t) (palaceName : string)
    (transformationType : TransformationType) (w w' : World) :
  outcome (ZiweiService.checkPalaceTransformation iz palaceName
             transformationType w)
  = outcome (ZiweiService.checkPalaceTransformation iz palaceName
               transformationType w')
  /\ (forall js cal tyme dto,
        outcome (ZiweiService.checkPalaceTransformation iz palaceName
                   transformationType
                   (fst (ZiweiService.calculateZiweiChart js cal iz tyme dto
                           w)))
        = outcome (ZiweiService.checkPalaceTransformation iz palaceName
                     transformationType w))
  /\ match outcome (ZiweiService.checkPalaceTransformation iz palaceName
                      transformationType w) with
     | Throw e => IztroService.getTripleSquarePalaces iz palaceName = Throw e
     | Ok r =>
         exists related,
           IztroService.getTripleSquarePalaces iz palaceName = Ok related
           /\ (exists_ r = true <-> details r <> [])
           /\ Forall (Justified iz related transformationType) (details r)
           /\ (exists_ r = true ->
               exists n,
                 In n (allRelatedPalaces related)
                 /\ In n ["命宫"; "兄弟宫"; "夫妻宫"])
     end.
Proof.
  assert (Hstate : forall v v' : World,
    outcome (ZiweiService.checkPalaceTransformation iz palaceName
               transformationType v)
    = outcome (ZiweiService.checkPalaceTransformation iz palaceName
                 transformationType v')).
  { intros v v'.
    unfold ZiweiService.checkPalaceTransformation,
      ZiweiService.getTripleSquarePalaces, outcome, bind, call, ret.
    cbn [snd].
    now destruct (IztroService.getTripleSquarePalaces iz palaceName). }
  split; [apply Hstate |]. split; [intros; apply Hstate |].
  unfold ZiweiService.checkPalaceTransformation,
    ZiweiService.getTripleSquarePalaces, outcome, bind, call, ret.
  cbn [snd].
  destruct (IztroService.getTripleSquarePalaces iz palaceName)
    as [related | e]; cbn [snd]; [| reflexivity].
  exists related. split; [reflexivity |]. cbn [exists_ details].
  match goal with |- context [length ?l] => set (ds := l) end.
  assert (Hjust : Forall (Justified iz related transformationType) ds).
  { apply Forall_forall. intros d Hd. apply list_elem_of_In in Hd.
    subst ds. apply in_flat_map in Hd as ([pn mockStars] & Hmock & Hd).
    cbn [fst snd] in Hd.
    destruct (includes (allRelatedPalaces related) pn) eqn:Hinc;
      [| contradiction].
    apply in_flat_map in Hd as (s & Hs & Hd).
    destruct (IztroService.getStarTransformation iz s) as [t |] eqn:Ht;
      [| contradiction].
    destruct (String.eqb (st_type t)
                (TransformationType_string transformationType)) eqn:Hty;
      [| contradiction].
    destruct Hd as [<- | []]. unfold Justified. cbn.
    split; [now apply includes_In |].
    split; [now exists mockStars |].
    exists t. apply String.eqb_eq in Hty. auto. }
  assert (Hex : (0 <? length ds)%nat = true <-> ds <> []).
  { rewrite Nat.ltb_lt. destruct ds; cbn; split; intros; try lia; congruence. }
  split; [exact Hex |]. split; [exact Hjust |].
  intros Htrue. apply Hex in Htrue.
  destruct ds as [| d ds']; [congruence |].
  apply Forall_cons in Hjust as [(Hrel & (mockStars & Hmock & _) & _) _].
  exists (d_palace d). split; [exact Hrel |].
  apply (in_map fst) in Hmock. exact Hmock.
Qed.

Example check_fixture :
  outcome (ZiweiService.checkPalaceTransformation Fixture.iztro "财帛宫"
             huaquan (Fixture.laterWorldIn 2026))
  = Ok {| exists_ := true;
          details := [ {| d_palace := "命宫"; d_star := "紫微";
                          d_transformation := "化权" |} ] |}.
Proof. reflexivity. Qed.

(* ===================================================================== *)
(** ** Suitable and avoided activities *)
(* ===================================================================== *)

(** C10: for a date that the calendar converts (to a lunar date [lunar]),
    [getSuitableAvoid] returns the input string as [date], the fixed five
    avoided items, and the fixed ten suitable items, followed by 开业, 剪彩,
    纳财 exactly when the lunar month is 1 and the lunar day is 1. *)
Theorem C10_suitable_avoid
    (js : JsBuiltins.t) (cal : Calendar.t) (dateStr : string) (w : World)
    (lunar : Lunar.t) :
  (let nums := map (JsBuiltins.Number js) (split "-" dateStr) in
   Calendar.Solar_fromYmd_getLunar cal (nums !! 0%nat) (nums !! 1%nat)
     (nums !! 2%nat) = Ok lunar) ->
  outcome (AlmanacService.getSuitableAvoid js cal dateStr w)
  = Ok {| sa_date := dateStr;
          sa_suitable :=
            ["祭祀"; "祈福"; "求嗣"; "开光"; "出行";
             "解除"; "伐木"; "入宅"; "移徙"; "安床"]
            ++ (if (Lunar.getMonth lunar =? 1)%Z && (Lunar.getDay lunar =? 1)%Z
                then ["开业"; "剪彩"; "纳财"] else []);
          sa_avoid := ["嫁娶"; "安葬"; "破土"; "修坟"; "纳畜"] |}.
Proof.
  cbv zeta. intros Hlunar.
  unfold AlmanacService.getSuitableAvoid, outcome, bind, call, ret.
  rewrite Hlunar. cbn [snd].
  unfold AlmanacService.getSuitabilityItems. cbn [suitable avoid].
  destruct ((Lunar.getMonth lunar =? 1)%Z && (Lunar.getDay lunar =? 1)%Z);
    reflexivity.
Qed.

Lemma C10_suitable_avoid_witness :
  outcome (AlmanacService.getSuitableAvoid Fixture.js Fixture.calendar
             "2024-01-01" (Fixture.worldIn 2026))
  = Ok {| sa_date := "2024-01-01";
          sa_suitable :=
            ["祭祀"; "祈福"; "求嗣"; "开光"; "出行";
             "解除"; "伐木"; "入宅"; "移徙"; "安床"]
            ++ (if (Lunar.getMonth (Lunar.mk 2024 1 1) =? 1)%Z
                   && (Lunar.getDay (Lunar.mk 2024 1 1) =? 1)%Z
                then ["开业"; "剪彩"; "纳财"] else []);
          sa_avoid := ["嫁娶"; "安葬"; "破土"; "修坟"; "纳畜"] |}.
Proof.
  exact (C10_suitable_avoid Fixture.js Fixture.calendar "2024-01-01"
           (Fixture.worldIn 2026) (Lunar.mk 2024 1 1) eq_refl).
Defined.

(** Another day: the ten items only. A date that the calendar rejects: the
    failure leaves the method unwrapped. *)
Example suitable_avoid_plain_day :
  outcome (AlmanacService.getSuitableAvoid Fixture.js Fixture.calendar
             "2024-03-15" (Fixture.worldIn 2026))
  = Ok {| sa_date := "2024-03-15";
          sa_suitable :=
            ["祭祀"; "祈福"; "求嗣"; "开光"; "出行";
             "解除"; "伐木"; "入宅"; "移徙"; "安床"];
          sa_avoid := ["嫁娶"; "安葬"; "破土"; "修坟"; "纳畜"] |}
  /\ outcome (AlmanacService.getSuitableAvoid Fixture.js Fixture.calendar
                "tomorrow" (Fixture.worldIn 2026))
     = Throw "invalid date".
Proof. split; reflexivity. Qed.

(* ===================================================================== *)
(** ** Further properties: directions and meanings of palaces *)
(* ===================================================================== *)

Lemma js_index_directions (i : Z) :
  (0 <= i < 8)%Z ->
  exists d, js_index ZiweiService.directions i = Some d
            /\ In d ZiweiService.directions.
Proof.
  intros Hi.
  assert (Hin : In i [0; 1; 2; 3; 4; 5; 6; 7]%Z) by (simpl; lia).
  simpl in Hin.
  repeat (destruct Hin as [<- | Hin];
          [ eexists; split; [reflexivity | simpl; tauto] | ]).
  contradiction.
Qed.

(** X1: [getPalaceDirection] answers "未知" exactly for the positions p <= 0
    whose p - 1 is not a multiple of 8; every position p >= 1 gets one of the
    eight directions. *)
Theorem X1_direction_unknown_iff (p : Z) :
  (ZiweiService.getPalaceDirection p = "未知"
   <-> (p <= 0)%Z /\ Z.rem (p - 1) 8 <> 0%Z)
  /\ ((1 <= p)%Z ->
      In (ZiweiService.getPalaceDirection p) ZiweiService.directions).
Proof.
  assert (Hpos : (1 <= p)%Z ->
    In (ZiweiService.getPalaceDirection p) ZiweiService.directions).
  { intros Hp. unfold ZiweiService.getPalaceDirection, js_rem.
    destruct (js_index_directions (Z.rem (p - 1) 8)) as (d & -> & Hd).
    - rewrite Z.rem_mod_nonneg by lia. apply Z.mod_pos_bound. lia.
    - simpl in Hd.
      repeat (destruct Hd as [<- | Hd]; [simpl; tauto |]). contradiction. }
  split; [| exact Hpos]. split.
  - intros Hu. destruct (Z_le_gt_dec p 0) as [Hle | Hgt].
    + split; [exact Hle |]. intros Hz.
      unfold ZiweiService.getPalaceDirection, js_rem in Hu.
      rewrite Hz in Hu. vm_compute in Hu. discriminate Hu.
    + exfalso. specialize (Hpos ltac:(lia)). rewrite Hu in Hpos.
      vm_compute in Hpos. intuition discriminate.
  - intros [Hle Hnz]. unfold ZiweiService.getPalaceDirection, js_rem, js_index.
    pose proof (Z.rem_nonpos (p - 1) 8 ltac:(lia) ltac:(lia)) as Hr.
    destruct (Z.ltb_spec (Z.rem (p - 1) 8) 0); [reflexivity | lia].
Qed.

(** X2: among the twelve palace positions two different ones have the same
    direction exactly when they are 8 apart: positions 1 to 8 have the eight
    directions, positions 9 to 12 repeat those of 1 to 4. *)
Theorem X2_direction_shared (p q : Z) :
  (1 <= p < q)%Z -> (q <= 12)%Z ->
  (ZiweiService.getPalaceDirection p = ZiweiService.getPalaceDirection q
   <-> q = (p + 8)%Z).
Proof.
  intros Hpq Hq.
  pose proof (valid_position_cases p ltac:(lia)) as Hp.
  pose proof (valid_position_cases q ltac:(lia)) as Hq'.
  simpl in Hp, Hq'.
  repeat (destruct Hp as [<- | Hp]; [| try contradiction]);
    repeat (destruct Hq' as [<- | Hq']; [| try contradiction]);
    try lia;
    (split; [ intros E; try reflexivity; vm_compute in E; discriminate E
            | intros E; try reflexivity; lia ]).
Qed.

Lemma X2_direction_shared_witness :
  ZiweiService.getPalaceDirection 2 = ZiweiService.getPalaceDirection 10
  <-> 10%Z = (2 + 8)%Z.
Proof.
  apply (X2_direction_shared 2 10); lia.
Defined.

(** X3: [getPalaceSignificance] answers the sentinel "未知宫位" exactly for the
    names outside its twelve-entry table; for each of the twelve palace names
    it gives a meaning that is neither empty nor the sentinel. *)
Theorem X3_significance_unknown_iff (n : string) :
  ZiweiService.getPalaceSignificance n = "未知宫位"
  <-> ~ In n ["命宫"; "兄弟宫"; "夫妻宫"; "子女宫"; "财帛宫"; "疾厄宫";
              "迁移宫"; "交友宫"; "官禄宫"; "田宅宫"; "福德宫"; "父母宫"].
Proof.
  unfold ZiweiService.getPalaceSignificance. split.
  - intros Hs Hin. simpl in Hin.
    repeat (destruct Hin as [<- | Hin];
            [vm_compute in Hs; discriminate Hs |]).
    contradiction.
  - intros Hout. unfold ZiweiService.significanceMap.
    rewrite (not_elem_of_list_to_map_1 (M := gmap string)); [reflexivity |].
    intros Hin. apply Hout. apply list_elem_of_In in Hin. exact Hin.
Qed.

(* ===================================================================== *)
(** ** Further properties: date and time strings *)
(* ===================================================================== *)

Lemma split_not_nil (sep : ascii) (s : string) : split sep s <> [].
Proof.
  destruct s as [| c rest]; simpl; [discriminate |].
  destruct (Ascii.eqb c sep); [discriminate |].
  destruct (split sep rest); discriminate.
Qed.

Lemma split_free (sep : ascii) (s : string) :
  occurs sep s = false -> split sep s = [s].
Proof.
  induction s as [| c rest IH]; simpl; [reflexivity |].
  intros H. apply orb_false_iff in H as [Hc Hrest].
  rewrite Hc, (IH Hrest). reflexivity.
Qed.

Lemma split_field (sep : ascii) (a b : string) :
  occurs sep a = false ->
  split sep (a +:+ String sep b) = a :: split sep b.
Proof.
  induction a as [| c rest IH]; simpl; intros H.
  - now rewrite Ascii.eqb_refl.
  - apply orb_false_iff in H as [Hc Hrest].
    rewrite Hc, (IH Hrest). reflexivity.
Qed.

(** X4: [convertToLunarDate] hands the calendar the numbers of the first three
    dash-separated fields of the date string, whatever follows a third dash;
    a string without a dash leaves month and day undefined instead of failing
    in the method itself; and every date type other than "solar" is read as a
    lunar date. *)
Theorem X4_convertToLunarDate_fields
    (js : JsBuiltins.t) (cal : Calendar.t) (dateType : string) (w : World)
    (y m d : string) :
  occurs "-" y = false -> occurs "-" m = false -> occurs "-" d = false ->
  let convert :=
    if String.eqb dateType "solar"
    then Calendar.Solar_fromYmd_getLunar cal
    else Calendar.Lunar_fromYmd cal in
  outcome (ZiweiService.convertToLunarDate js cal
             (y +:+ "-" +:+ m +:+ "-" +:+ d) dateType w)
  = convert (Some (JsBuiltins.Number js y)) (Some (JsBuiltins.Number js m))
      (Some (JsBuiltins.Number js d))
  /\ (forall rest,
        outcome (ZiweiService.convertToLunarDate js cal
                   (y +:+ "-" +:+ m +:+ "-" +:+ d +:+ "-" +:+ rest)
                   dateType w)
        = convert (Some (JsBuiltins.Number js y))
            (Some (JsBuiltins.Number js m)) (Some (JsBuiltins.Number js d)))
  /\ outcome (ZiweiService.convertToLunarDate js cal y dateType w)
     = convert (Some (JsBuiltins.Number js y)) None None.
Proof.
  intros Hy Hm Hd convert. subst convert.
  unfold ZiweiService.convertToLunarDate, outcome.
  change (y +:+ "-" +:+ m +:+ "-" +:+ d)
    with (y +:+ String "-" (m +:+ String "-" d)).
  rewrite (split_field "-" y _ Hy), (split_field "-" m _ Hm),
    (split_free "-" d Hd), (split_free "-" y Hy).
  split; [| split].
  - destruct (String.eqb dateType "solar"); reflexivity.
  - intros rest.
    change (y +:+ "-" +:+ m +:+ "-" +:+ d +:+ "-" +:+ rest)
      with (y +:+ String "-" (m +:+ String "-" (d +:+ String "-" rest))).
    rewrite (split_field "-" y _ Hy), (split_field "-" m _ Hm),
      (split_field "-" d _ Hd).
    destruct (String.eqb dateType "solar"); reflexivity.
  - destruct (String.eqb dateType "solar"); reflexivity.
Qed.

Lemma X4_convertToLunarDate_fields_witness :
  outcome (ZiweiService.convertToLunarDate Fixture.js Fixture.calendar
             ("1990" +:+ "-" +:+ "05" +:+ "-" +:+ "15") "lunar"
             (Fixture.worldIn 2026))
  = Calendar.Lunar_fromYmd Fixture.calendar
      (Some (JsBuiltins.Number Fixture.js "1990"))
      (Some (JsBuiltins.Number Fixture.js "05"))
      (Some (JsBuiltins.Number Fixture.js "15")).
Proof.
  exact (proj1 (X4_convertToLunarDate_fields Fixture.js Fixture.calendar
                  "lunar" (Fixture.worldIn 2026) "1990" "05" "15"
                  eq_refl eq_refl eq_refl)).
Defined.

(** X5: [calculateFourPillars] reads the hour before the first colon and the
    minute between the first and the second; a birth time without a colon, or
    with nothing after it, gives the pillar computation the minute parsed
    from "0". *)
Theorem X5_calculateFourPillars_minute
    (js : JsBuiltins.t) (tyme : Tyme4tsService.t) (lunarDate : Lunar.t)
    (birthPlace : string) (w : World) (h mi : string) :
  occurs ":" h = false -> occurs ":" mi = false ->
  let pillars hourText minuteText :=
    Tyme4tsService.calculateFourPillars tyme (Lunar.getYear lunarDate)
      (Lunar.getMonth lunarDate) (Lunar.getDay lunarDate)
      (JsBuiltins.parseInt js (Some hourText))
      (JsBuiltins.parseInt js (Some minuteText)) birthPlace in
  outcome (ZiweiService.calculateFourPillars js tyme lunarDate h birthPlace w)
  = pillars h "0"
  /\ outcome (ZiweiService.calculateFourPillars js tyme lunarDate
                (h +:+ ":" +:+ mi) birthPlace w)
     = pillars h (if String.eqb mi "" then "0" else mi)
  /\ (forall rest,
        outcome (ZiweiService.calculateFourPillars js tyme lunarDate
                   (h +:+ ":" +:+ mi +:+ ":" +:+ rest) birthPlace w)
        = pillars h (if String.eqb mi "" then "0" else mi)).
Proof.
  intros Hh Hmi pillars. subst pillars.
  unfold ZiweiService.calculateFourPillars, outcome. cbn [call snd].
  split; [| split].
  - rewrite (split_free ":" h Hh). reflexivity.
  - change (h +:+ ":" +:+ mi) with (h +:+ String ":" mi).
    rewrite (split_field ":" h _ Hh), (split_free ":" mi Hmi). reflexivity.
  - intros rest.
    change (h +:+ ":" +:+ mi +:+ ":" +:+ rest)
      with (h +:+ String ":" (mi +:+ String ":" rest)).
    rewrite (split_field ":" h _ Hh), (split_field ":" mi _ Hmi). reflexivity.
Qed.

Lemma X5_calculateFourPillars_minute_witness :
  outcome (ZiweiService.calculateFourPillars Fixture.js Fixture.tyme4ts
             Fixture.birth "08" "北京" (Fixture.worldIn 2026))
  = Tyme4tsService.calculateFourPillars Fixture.tyme4ts 1990 4 21
      (JsBuiltins.parseInt Fixture.js (Some "08"))
      (JsBuiltins.parseInt Fixture.js (Some "0")) "北京".
Proof.
  exact (proj1 (X5_calculateFourPillars_minute Fixture.js Fixture.tyme4ts
                  Fixture.birth "北京" (Fixture.worldIn 2026) "08" "30"
                  eq_refl eq_refl)).
Defined.

(* ===================================================================== *)
(** ** Further properties: the selected period *)
(* ===================================================================== *)

(** X6: whenever [generateLuckPeriods] gets through, the period it selects is
    one of the major periods it returns, and it selects none only when the
    collaborator returned no major period at all. *)
Theorem X6_active_major_member
    (iz : IztroService.t) (lunarDate : Lunar.t) (gender : string)
    (palaces : list Palace) (w : World) (r : LuckPeriods)
    (active : option LuckPeriod) :
  outcome (ZiweiService.generateLuckPeriods_locals iz lunarDate gender palaces
             w) = Ok (r, active) ->
  (active = None <-> major r = [])
  /\ (forall p, active = Some p -> In p (major r)).
Proof.
  rewrite generateLuckPeriods_locals_run. unfold periodsAt, andThen.
  repeat match goal with
         | |- context [match ?x with Ok _ => _ | Throw _ => _ end] =>
             destruct x; try discriminate
         end.
  intros H. inversion H; subst; clear H. cbn [major].
  match goal with |- context [List.find ?f ?l] =>
    destruct (List.find f l) as [q |] eqn:Hfind end.
  - apply find_some in Hfind as [Hin _]. split.
    + split; [discriminate |]. intros ->. contradiction.
    + intros p Hp. inversion Hp; subst. exact Hin.
  - match goal with |- context [?l !! 0%nat] => destruct l as [| q rest] end.
    + split; [tauto |]. discriminate.
    + cbn. split.
      * split; discriminate.
      * intros p Hp. inversion Hp; subst. now left.
Qed.

Lemma X6_active_major_member_witness :
  exists r active,
    outcome (ZiweiService.generateLuckPeriods_locals Fixture.iztro
               Fixture.birth "male" Fixture.chart (Fixture.worldIn 2050))
    = Ok (r, active)
    /\ (active = None <-> major r = [])
    /\ (forall p, active = Some p -> In p (major r)).
Proof.
  destruct (outcome (ZiweiService.generateLuckPeriods_locals Fixture.iztro
                       Fixture.birth "male" Fixture.chart
                       (Fixture.worldIn 2050))) as [[r active] | e] eqn:E.
  - exists r, active. split; [reflexivity |].
    exact (X6_active_major_member _ _ _ _ _ _ _ E).
  - vm_compute in E. discriminate E.
Defined.

(* ===================================================================== *)
(** ** Further properties: the order of the collaborator calls *)
(* ===================================================================== *)

(** One successful statement of a method, and the state it leaves. *)
Ltac step_ok H :=
  let w' := fresh "w" in
  let a := fresh "a" in
  let Hstep := fresh "Hstep" in
  apply bind_inv_Ok in H as (w' & a & Hstep & H);
  first
    [ apply call_inv_Ok in Hstep as [Hstep ->]
    | unfold newDate in Hstep; inversion Hstep; subst; clear Hstep
    | unfold emit in Hstep; inversion Hstep; subst; clear Hstep
    | idtac ].

Lemma generateLuckPeriods_ok iz lunarDate gender palaces w w1 lp :
  ZiweiService.generateLuckPeriods iz lunarDate gender palaces w = (w1, Ok lp) ->
  w1 = mkWorld (clock w) (S (S (S (S (reads w)))))
         (trace w
          ++ [ EvCall "iztro.calculateMajorPeriods" None;
               EvCall "iztro.calculateMinorPeriod" None;
               EvCall "iztro.calculateAnnualPeriod" None;
               EvCall "iztro.calculateMonthlyPeriod" None;
               EvCall "iztro.calculateDailyPeriod" None;
               EvCall "iztro.calculateHourlyPeriod" None ]).
Proof.
  unfold ZiweiService.generateLuckPeriods,
    ZiweiService.generateLuckPeriods_locals. intros H.
  apply bind_inv_Ok in H as (w2 & pair & H & Hret).
  unfold ret in Hret. inversion Hret; subst; clear Hret.
  do 10 step_ok H.
  unfold ret in H. inversion H; subst; clear H.
  cbn [clock reads trace]. rewrite <- !app_assoc. reflexivity.
Qed.

Lemma convertToLunarDate_ok js cal dateStr dateType w w1 lunarDate :
  ZiweiService.convertToLunarDate js cal dateStr dateType w
  = (w1, Ok lunarDate) ->
  w1 = mkWorld (clock w) (reads w)
         (trace w
          ++ [ EvCall (if String.eqb dateType "solar"
                       then "Solar.fromYmd.getLunar" else "Lunar.fromYmd")
                 None ]).
Proof.
  unfold ZiweiService.convertToLunarDate.
  destruct (String.eqb dateType "solar"); intros H;
    now apply call_inv_Ok in H as [_ ->].
Qed.

(** X7: a run of [calculateZiweiChart] that returns a chart has logged its
    start, called the calendar conversion that the date type selects, then the
    pillar, zodiac and constellation computations, the chart primitive and the
    six period computations, each exactly once and in this order, read the
    clock five times, and logged its end. *)
Theorem X7_chart_call_order js cal iz tyme dto w r :
  outcome (ZiweiService.calculateZiweiChart js cal iz tyme dto w) = Ok r ->
  events (ZiweiService.calculateZiweiChart js cal iz tyme dto w)
  = trace w
    ++ [ EvLog ("开始计算紫微斗数星盘: " +:+ JsBuiltins.JSON_stringify js dto);
         EvCall (if String.eqb (dateType dto) "solar"
                 then "Solar.fromYmd.getLunar" else "Lunar.fromYmd") None;
         EvCall "tyme4ts.calculateFourPillars" None;
         EvCall "tyme4ts.getChineseZodiac" None;
         EvCall "tyme4ts.getConstellation" None;
         EvCall "iztro.calculateZiweiChart" None;
         EvCall "iztro.calculateMajorPeriods" None;
         EvCall "iztro.calculateMinorPeriod" None;
         EvCall "iztro.calculateAnnualPeriod" None;
         EvCall "iztro.calculateMonthlyPeriod" None;
         EvCall "iztro.calculateDailyPeriod" None;
         EvCall "iztro.calculateHourlyPeriod" None;
         EvLog "紫微斗数星盘计算完成" ]
  /\ reads (fst (ZiweiService.calculateZiweiChart js cal iz tyme dto w))
     = (reads w + 5)%nat.
Proof.
  unfold outcome, events. intros H.
  destruct (ZiweiService.calculateZiweiChart js cal iz tyme dto w)
    as [w1 res] eqn:E.
  cbn [fst snd] in *. subst res.
  unfold ZiweiService.calculateZiweiChart in E.
  apply tryCatch_inv_Ok in E.
  unfold ZiweiService.calculateZiweiChart_body in E.
  step_ok E.
  apply bind_inv_Ok in E as (w2 & lunarDate & Hconv & E).
  apply convertToLunarDate_ok in Hconv. subst w2.
  unfold ZiweiService.calculateFourPillars in E.
  do 4 step_ok E.
  apply bind_inv_Ok in E as (w3 & lp & Hlp & E).
  apply generateLuckPeriods_ok in Hlp. subst w3.
  do 2 step_ok E.
  unfold ret in E. inversion E; subst; clear E.
  cbn [clock reads trace]. split.
  - rewrite <- !app_assoc. reflexivity.
  - lia.
Qed.

Lemma X7_chart_call_order_witness :
  calls (events (ZiweiService.calculateZiweiChart Fixture.js Fixture.calendar
                   Fixture.iztro Fixture.tyme4ts Fixture.dto
                   (Fixture.worldIn 2026)))
  = [ "Solar.fromYmd.getLunar"; "tyme4ts.calculateFourPillars";
      "tyme4ts.getChineseZodiac"; "tyme4ts.getConstellation";
      "iztro.calculateZiweiChart"; "iztro.calculateMajorPeriods";
      "iztro.calculateMinorPeriod"; "iztro.calculateAnnualPeriod";
      "iztro.calculateMonthlyPeriod"; "iztro.calculateDailyPeriod";
      "iztro.calculateHourlyPeriod" ]
  /\ reads (fst (ZiweiService.calculateZiweiChart Fixture.js Fixture.calendar
                   Fixture.iztro Fixture.tyme4ts Fixture.dto
                   (Fixture.worldIn 2026))) = 5%nat.
Proof.
  destruct (outcome (ZiweiService.calculateZiweiChart Fixture.js
                       Fixture.calendar Fixture.iztro Fixture.tyme4ts
                       Fixture.dto (Fixture.worldIn 2026))) as [r | e] eqn:E.
  - destruct (X7_chart_call_order _ _ _ _ _ _ _ E) as [Hev Hreads].
    split; [rewrite Hev; reflexivity | exact Hreads].
  - vm_compute in E. discriminate E.
Defined.

(** X8: in a run of [calculateZiweiChart] that returns a chart, the pillar
    computation and the chart primitive were asked about the same converted
    lunar date and the same parsed hour and minute; the zodiac is that of the
    lunar year; the constellation is computed from the second and third field
    of the birth date string as it was given, whatever the date type; and the
    chart primitive is told "man" for the gender "male" and "woman" for every
    other gender. *)
Theorem X8_chart_inputs js cal iz tyme dto w r :
  outcome (ZiweiService.calculateZiweiChart js cal iz tyme dto w) = Ok r ->
  let nums := map (JsBuiltins.Number js) (split "-" (birthDate dto)) in
  let hour := JsBuiltins.parseInt js (split ":" (birthTime dto) !! 0%nat) in
  let minute :=
    JsBuiltins.parseInt js
      (Some (or_string (split ":" (birthTime dto) !! 1%nat) "0")) in
  exists lunarDate zd,
    (if String.eqb (dateType dto) "solar"
     then Calendar.Solar_fromYmd_getLunar cal
     else Calendar.Lunar_fromYmd cal)
      (nums !! 0%nat) (nums !! 1%nat) (nums !! 2%nat) = Ok lunarDate
    /\ Tyme4tsService.calculateFourPillars tyme (Lunar.getYear lunarDate)
         (Lunar.getMonth lunarDate) (Lunar.getDay lunarDate) hour minute
         (birthPlace dto) = Ok (fourPillars r)
    /\ Tyme4tsService.getChineseZodiac tyme (Lunar.getYear lunarDate)
       = Ok (zodiac r)
    /\ Tyme4tsService.getConstellation tyme
         (JsBuiltins.parseInt js (split "-" (birthDate dto) !! 1%nat))
         (JsBuiltins.parseInt js (split "-" (birthDate dto) !! 2%nat))
       = Ok (constellation r)
    /\ IztroService.calculateZiweiChart iz
         {| ci_year := Lunar.getYear lunarDate;
            ci_month := Lunar.getMonth lunarDate;
            ci_day := Lunar.getDay lunarDate;
            ci_hour := hour;
            ci_minute := minute;
            ci_gender :=
              if String.eqb (gender dto) "male" then "man" else "woman" |}
       = Ok zd
    /\ map rp_position (palaces r) = map position (zd_palaces zd).
Proof.
  unfold outcome. intros H.
  destruct (ZiweiService.calculateZiweiChart js cal iz tyme dto w)
    as [w1 res] eqn:E.
  cbn [snd] in H. subst res.
  unfold ZiweiService.calculateZiweiChart in E.
  apply tryCatch_inv_Ok in E.
  unfold ZiweiService.calculateZiweiChart_body in E.
  step_ok E.
  apply bind_inv_Ok in E as (w2 & lunarDate & Hconv & E).
  unfold ZiweiService.calculateFourPillars in E.
  apply bind_inv_Ok in E as (w3 & fp & Hfp & E).
  apply call_inv_Ok in Hfp as [Hfp _].
  apply bind_inv_Ok in E as (w4 & zo & Hzo & E).
  apply call_inv_Ok in Hzo as [Hzo _].
  apply bind_inv_Ok in E as (w5 & co & Hco & E).
  apply call_inv_Ok in Hco as [Hco _].
  apply bind_inv_Ok in E as (w6 & zd & Hzd & E).
  apply call_inv_Ok in Hzd as [Hzd _].
  apply bind_inv_Ok in E as (w7 & lp & _ & E).
  apply bind_inv_Ok in E as (w8 & now & _ & E).
  apply bind_inv_Ok in E as (w9 & u & _ & E).
  unfold ret in E. inversion E; subst; clear E.
  cbn [fourPillars zodiac constellation palaces].
  exists lunarDate, zd.
  split.
  { unfold ZiweiService.convertToLunarDate in Hconv.
    destruct (String.eqb (dateType dto) "solar");
      now apply call_inv_Ok in Hconv as [Hconv _]. }
  repeat split; try assumption.
  now rewrite map_map.
Qed.

Lemma X8_chart_inputs_witness :
  exists r,
    outcome (ZiweiService.calculateZiweiChart Fixture.js Fixture.calendar
               Fixture.iztro Fixture.tyme4ts Fixture.dto (Fixture.worldIn 2026))
    = Ok r
    /\ exists lunarDate zd,
         Calendar.Solar_fromYmd_getLunar Fixture.calendar
           (Some (Int 1990)) (Some (Int 5)) (Some (Int 15)) = Ok lunarDate
         /\ IztroService.calculateZiweiChart Fixture.iztro
              {| ci_year := Lunar.getYear lunarDate;
                 ci_month := Lunar.getMonth lunarDate;
                 ci_day := Lunar.getDay lunarDate;
                 ci_hour := Int 8;
                 ci_minute := Int 30;
                 ci_gender := "man" |} = Ok zd
         /\ map rp_position (palaces r) = map position (zd_palaces zd).
Proof.
  destruct (outcome (ZiweiService.calculateZiweiChart Fixture.js
                       Fixture.calendar Fixture.iztro Fixture.tyme4ts
                       Fixture.dto (Fixture.worldIn 2026))) as [r | e] eqn:E.
  - exists r. split; [reflexivity |].
    destruct (X8_chart_inputs _ _ _ _ _ _ _ E)
      as (lunarDate & zd & Hl & _ & _ & _ & Hzd & Hpos).
    exists lunarDate, zd. repeat split; assumption.
  - vm_compute in E. discriminate E.
Defined.

Lemma bind_inv_Throw {A B} (m : M A) (k : A -> M B) w w2 e :
  bind m k w = (w2, Throw e) ->
  m w = (w2, Throw e)
  \/ exists w1 a, m w = (w1, Ok a) /\ k a w1 = (w2, Throw e).
Proof.
  unfold bind. destruct (m w) as [w1 [a | e']]; intros H.
  - right. exists w1, a. auto.
  - left. inversion H; subst. reflexivity.
Qed.

Lemma call_inv_Throw {A} (method : string) (r : result A) w w1 e :
  call method r w = (w1, Throw e) ->
  r = Throw e
  /\ w1 = mkWorld (clock w) (reads w)
            (trace w ++ [EvCall method (Some e)]).
Proof. unfold call. intros H. inversion H; subst. auto. Qed.

(** A call that may be the one that throws: [k] calls of [order] are behind
    when it does. *)
Ltac call_or_throw H order k :=
  let w' := fresh "w" in
  let a := fresh "a" in
  let Hstep := fresh "Hstep" in
  apply bind_inv_Throw in H as [H | (w' & a & Hstep & H)];
  [ apply call_inv_Throw in H as [_ ->];
    exists (firstn k order), (nth k order ""), (skipn (S k) order);
    split; [reflexivity |];
    cbn [clock reads trace firstn nth returnedCalls map app];
    rewrite <- ?app_assoc; reflexivity
  | apply call_inv_Ok in Hstep as [_ ->] ].

(** A clock reading or a log line: it does not throw. *)
Ltac pass_quiet H :=
  let w' := fresh "w" in
  let a := fresh "a" in
  let Hstep := fresh "Hstep" in
  apply bind_inv_Throw in H as [H | (w' & a & Hstep & H)];
  [ discriminate H
  | first [ unfold newDate in Hstep | unfold emit in Hstep ];
    inversion Hstep; subst; clear Hstep ].

Lemma generateLuckPeriods_throw iz lunarDate gender palaces w w1 e :
  ZiweiService.generateLuckPeriods iz lunarDate gender palaces w
  = (w1, Throw e) ->
  exists done failed rest,
    periodCallOrder = done ++ failed :: rest
    /\ trace w1 = trace w ++ returnedCalls done ++ [EvCall failed (Some e)].
Proof.
  unfold ZiweiService.generateLuckPeriods,
    ZiweiService.generateLuckPeriods_locals. intros H.
  apply bind_inv_Throw in H as [H | (w2 & pair & _ & H)];
    [| discriminate H].
  pass_quiet H.
  call_or_throw H periodCallOrder 0%nat.
  call_or_throw H periodCallOrder 1%nat.
  call_or_throw H periodCallOrder 2%nat.
  pass_quiet H.
  call_or_throw H periodCallOrder 3%nat.
  pass_quiet H.
  call_or_throw H periodCallOrder 4%nat.
  pass_quiet H.
  call_or_throw H periodCallOrder 5%nat.
  discriminate H.
Qed.

Lemma body_throw js cal iz tyme dto w w1 e :
  ZiweiService.calculateZiweiChart_body js cal iz tyme dto w = (w1, Throw e) ->
  exists done failed rest,
    chartCallOrder (dateType dto) = done ++ failed :: rest
    /\ trace w1
       = trace w
         ++ [EvLog ("开始计算紫微斗数星盘: "
                    +:+ JsBuiltins.JSON_stringify js dto)]
         ++ returnedCalls done ++ [EvCall failed (Some e)].
Proof.
  unfold ZiweiService.calculateZiweiChart_body. intros H.
  pass_quiet H.
  unfold ZiweiService.convertToLunarDate, ZiweiService.calculateFourPillars
    in H.
  unfold chartCallOrder.
  destruct (String.eqb (dateType dto) "solar").
  - call_or_throw H
      (["Solar.fromYmd.getLunar"; "tyme4ts.calculateFourPillars";
        "tyme4ts.getChineseZodiac"; "tyme4ts.getConstellation";
        "iztro.calculateZiweiChart"] ++ periodCallOrder) 0%nat.
    call_or_throw H
      (["Solar.fromYmd.getLunar"; "tyme4ts.calculateFourPillars";
        "tyme4ts.getChineseZodiac"; "tyme4ts.getConstellation";
        "iztro.calculateZiweiChart"] ++ periodCallOrder) 1%nat.
    call_or_throw H
      (["Solar.fromYmd.getLunar"; "tyme4ts.calculateFourPillars";
        "tyme4ts.getChineseZodiac"; "tyme4ts.getConstellation";
        "iztro.calculateZiweiChart"] ++ periodCallOrder) 2%nat.
    call_or_throw H
      (["Solar.fromYmd.getLunar"; "tyme4ts.calculateFourPillars";
        "tyme4ts.getChineseZodiac"; "tyme4ts.getConstellation";
        "iztro.calculateZiweiChart"] ++ periodCallOrder) 3%nat.
    call_or_throw H
      (["Solar.fromYmd.getLunar"; "tyme4ts.calculateFourPillars";
        "tyme4ts.getChineseZodiac"; "tyme4ts.getConstellation";
        "iztro.calculateZiweiChart"] ++ periodCallOrder) 4%nat.
    apply bind_inv_Throw in H as [H | (w2 & lp & Hlp & H)].
    + apply generateLuckPeriods_throw in H
        as (done & failed & rest & Horder & Htrace).
      exists (["Solar.fromYmd.getLunar"; "tyme4ts.calculateFourPillars";
               "tyme4ts.getChineseZodiac"; "tyme4ts.getConstellation";
               "iztro.calculateZiweiChart"] ++ done), failed, rest.
      split; [rewrite Horder; now rewrite <- app_assoc |].
      rewrite Htrace. cbn [clock reads trace returnedCalls map app].
      rewrite <- !app_assoc. reflexivity.
    + pass_quiet H. pass_quiet H. discriminate H.
  - call_or_throw H
      (["Lunar.fromYmd"; "tyme4ts.calculateFourPillars";
        "tyme4ts.getChineseZodiac"; "tyme4ts.getConstellation";
        "iztro.calculateZiweiChart"] ++ periodCallOrder) 0%nat.
    call_or_throw H
      (["Lunar.fromYmd"; "tyme4ts.calculateFourPillars";
        "tyme4ts.getChineseZodiac"; "tyme4ts.getConstellation";
        "iztro.calculateZiweiChart"] ++ periodCallOrder) 1%nat.
    call_or_throw H
      (["Lunar.fromYmd"; "tyme4ts.calculateFourPillars";
        "tyme4ts.getChineseZodiac"; "tyme4ts.getConstellation";
        "iztro.calculateZiweiChart"] ++ periodCallOrder) 2%nat.
    call_or_throw H
      (["Lunar.fromYmd"; "tyme4ts.calculateFourPillars";
        "tyme4ts.getChineseZodiac"; "tyme4ts.getConstellation";
        "iztro.calculateZiweiChart"] ++ periodCallOrder) 3%nat.
    call_or_throw H
      (["Lunar.fromYmd"; "tyme4ts.calculateFourPillars";
        "tyme4ts.getChineseZodiac"; "tyme4ts.getConstellation";
        "iztro.calculateZiweiChart"] ++ periodCallOrder) 4%nat.
    apply bind_inv_Throw in H as [H | (w2 & lp & Hlp & H)].
    + apply generateLuckPeriods_throw in H
        as (done & failed & rest & Horder & Htrace).
      exists (["Lunar.fromYmd"; "tyme4ts.calculateFourPillars";
               "tyme4ts.getChineseZodiac"; "tyme4ts.getConstellation";
               "iztro.calculateZiweiChart"] ++ done), failed, rest.
      split; [rewrite Horder; now rewrite <- app_assoc |].
      rewrite Htrace. cbn [clock reads trace returnedCalls map app].
      rewrite <- !app_assoc. reflexivity.
    + pass_quiet H. pass_quiet H. discriminate H.
Qed.

(** X9: when [calculateZiweiChart] throws, the collaborator calls it made are
    an initial segment of its program order: every computation before the
    failing one was called once and returned, the failing one is the last
    call, and none of the later ones (in particular no chart primitive after
    a failed calendar conversion, no period computation after a failed chart
    primitive) was called at all. *)
Theorem X9_chart_failure_stops js cal iz tyme dto w message :
  outcome (ZiweiService.calculateZiweiChart js cal iz tyme dto w)
  = Throw message ->
  exists done failed rest e,
    chartCallOrder (dateType dto) = done ++ failed :: rest
    /\ events (ZiweiService.calculateZiweiChart js cal iz tyme dto w)
       = trace w
         ++ [EvLog ("开始计算紫微斗数星盘: "
                    +:+ JsBuiltins.JSON_stringify js dto)]
         ++ returnedCalls done
         ++ [EvCall failed (Some e); EvError "紫微斗数星盘计算失败"]
    /\ message = "星盘计算失败: " +:+ e.
Proof.
  unfold outcome, events, ZiweiService.calculateZiweiChart, tryCatch.
  destruct (ZiweiService.calculateZiweiChart_body js cal iz tyme dto w)
    as [w1 [r | e]] eqn:E; cbn [fst snd]; [discriminate |].
  intros H. unfold bind, emit, throw in *. cbn [fst snd trace] in *.
  inversion H; subst; clear H.
  apply body_throw in E as (done & failed & rest & Horder & Htrace).
  exists done, failed, rest, e. split; [exact Horder |].
  split; [| reflexivity].
  rewrite Htrace, <- !app_assoc. reflexivity.
Qed.

Lemma X9_chart_failure_stops_witness :
  exists done failed rest e,
    chartCallOrder "solar" = done ++ failed :: rest
    /\ events (ZiweiService.calculateZiweiChart Fixture.js Fixture.calendar
                 (Fixture.iztroFailingChart "boom") Fixture.tyme4ts
                 Fixture.dto (Fixture.worldIn 2026))
       = trace (Fixture.worldIn 2026)
         ++ [EvLog ("开始计算紫微斗数星盘: "
                    +:+ JsBuiltins.JSON_stringify Fixture.js Fixture.dto)]
         ++ returnedCalls done
         ++ [EvCall failed (Some e); EvError "紫微斗数星盘计算失败"]
    /\ "星盘计算失败: boom" = "星盘计算失败: " +:+ e.
Proof.
  exact (X9_chart_failure_stops Fixture.js Fixture.calendar
           (Fixture.iztroFailingChart "boom") Fixture.tyme4ts Fixture.dto
           (Fixture.worldIn 2026) "星盘计算失败: boom" eq_refl).
Defined.
